(** * A shallow embedding of the social-feed backend (src/python)

    The SQLAlchemy models of [models.py] become records, the three tables
    become the fields of a database state [Db], and every FastAPI handler of
    [main.py] becomes a function [Db -> ... -> Db * response _] that returns
    the state after the request's transaction (the state before it when the
    transaction is rolled back or never written) together with the HTTP
    answer.  Wall-clock readings ([datetime.utcnow()]) and the random draws
    of [secrets.choice] are explicit arguments. *)

From stdpp Require Import base gmap strings list.
From Stdlib Require Import ZArith String Ascii.

Local Open Scope Z_scope.

(* ================================================================= *)
(** ** models.py : identifiers *)

(** [string.ascii_letters + string.digits + "_-"] *)
Definition ascii_letters : string :=
  "abcdefghijklmnopqrstuvwxyzABCDEFGHIJKLMNOPQRSTUVWXYZ"%string.
Definition digits : string := "0123456789"%string.
Definition chars : string :=
  String.append ascii_letters (String.append digits "_-"%string).

(** [secrets.choice(seq)] is [seq[randbelow(len(seq))]]; the draw [r] of
    the random source is reduced below [len(seq)], as [randbelow] does. *)
Definition choice (s : string) (r : nat) : ascii :=
  match String.get (Nat.modulo r (String.length s)) s with
  | Some a => a
  | None => "a"%char
  end.

(** [''.join(secrets.choice(chars) for _ in range(8))]; [rs i] is the
    i-th draw of the random source. *)
Definition random_part (rs : nat -> nat) : string :=
  string_of_list_ascii (map (fun i => choice chars (rs i)) (seq 0 8)).

(** [generate_id(prefix)] returns [f"{prefix}_{random_part}"]. *)
Definition generate_id (prefix : string) (rs : nat -> nat) : string :=
  String.append prefix (String.append "_"%string (random_part rs)).

(** The pattern [^[A-Za-z0-9_-]+$] of the [Post.id] / [Comment.id]
    fields of schemas.py. *)
Definition is_id_char (a : ascii) : bool :=
  let n := nat_of_ascii a in
  (Nat.leb 65 n && Nat.leb n 90) || (Nat.leb 97 n && Nat.leb n 122)
  || (Nat.leb 48 n && Nat.leb n 57) || Nat.eqb n 95 || Nat.eqb n 45.

Definition id_matches (s : string) : bool :=
  negb (String.eqb s ""%string) && forallb is_id_char (list_ascii_of_string s).

(* ================================================================= *)
(** ** models.py : tables *)

(** Timestamps are readings of [datetime.utcnow()], in microseconds. *)
Abbreviation timestamp := nat (only parsing).

Module DBPost.
(** [class Post(Base)], table [posts]. *)
Record t := mk {
  id : string;
  username : string;
  content : string;
  createdAt : timestamp;
  updatedAt : timestamp;
  likes : Z
}.
End DBPost.

Module DBComment.
(** [class Comment(Base)], table [comments]. *)
Record t := mk {
  id : string;
  postId : string;
  username : string;
  content : string;
  createdAt : timestamp;
  updatedAt : timestamp
}.
End DBComment.

Module DBLike.
(** [class Like(Base)], table [likes].  The autoincrement integer key is
    left out: rows are unique on [(postId, username)]
    ([unique_post_user_like]), and [db.delete(like)] removes the one row
    that the query found. *)
Record t := mk {
  postId : string;
  username : string;
  createdAt : timestamp
}.
End DBLike.

(** The committed content of the SQLite database [sns_api.db]: the two
    tables keyed by their string primary key, and the rows of [likes]. *)
Record Db := mkDb {
  posts : gmap string DBPost.t;
  comments : gmap string DBComment.t;
  likes : list DBLike.t
}.

Definition empty_db : Db := mkDb ∅ ∅ [].

(* ================================================================= *)
(** ** schemas.py : request bodies *)

Module PostBase.
(** [NewPost] and [UpdatePost] ([PostBase]); [CommentBase] has the same
    two fields. *)
Record t := mk { username : string; content : string }.
End PostBase.

Module LikeRequest.
Record t := mk { username : string }.
End LikeRequest.

(** [Field(..., min_length=1)] on both fields of [PostBase] / [CommentBase]. *)
Definition validate_PostBase (b : PostBase.t) : option PostBase.t :=
  if Nat.leb 1 (String.length (PostBase.username b))
     && Nat.leb 1 (String.length (PostBase.content b))
  then Some b else None.

(* ================================================================= *)
(** ** main.py : answers *)

(** The exceptions SQLAlchemy raises on the paths modelled here. *)
Inductive db_error :=
| IntegrityError (constraint : string)
    (* [sqlite3.IntegrityError], with SQLite's message for the constraint *)
| StaleDataError
    (* the flush's UPDATE of a row matched no row *)
| InvalidRequestError.
    (* [db.refresh] of an object whose row is gone *)

(** An HTTP answer: a body with its status code, an [HTTPException] with
    the [{"code", "message"}] detail, the 500 [HTTPException] whose message
    is [str(e)] for the caught exception [e], FastAPI's own 422 answer when
    the request body does not validate against its pydantic schema, or the
    server's plain 500 answer when an exception escapes the handler. *)
Inductive response (A : Type) : Type :=
| RBody (status : Z) (body : A)
| RError (status : Z) (code message : string)
| RServerError (e : db_error)
| RRequestInvalid
| RUnhandled (e : db_error).
Arguments RBody {A} _ _.
Arguments RError {A} _ _ _.
Arguments RServerError {A} _.
Arguments RRequestInvalid {A}.
Arguments RUnhandled {A} _.

(** Python's [not s] on a [str]. *)
Definition is_empty (s : string) : bool :=
  match s with EmptyString => true | _ => false end.

Definition not_found {A} (what : string) : response A :=
  RError 404 "NOT_FOUND" what.
Definition bad_request {A} (msg : string) : response A :=
  RError 400 "BAD_REQUEST" msg.
(** [except Exception as e]: [db.rollback()], then 500 [SERVER_ERROR]
    with [str(e)]. *)
Definition server_error {A} (e : db_error) : response A := RServerError e.

Definition msg_fields : string := "Invalid input for required fields.".
Definition msg_username : string :=
  "Invalid input for required field 'username'.".

Definition set_posts (db : Db) (ps : gmap string DBPost.t) : Db :=
  mkDb ps (comments db) (likes db).
Definition set_comments (db : Db) (cs : gmap string DBComment.t) : Db :=
  mkDb (posts db) cs (likes db).

(* ================================================================= *)
(** ** main.py : post endpoints *)

(** [create_post]: the handler's own check, then the INSERT with the
    column defaults: [id = generate_id("p")], [likes = 0], and [createdAt]
    and [updatedAt], each from its own [default=datetime.utcnow] call, the
    readings [t_created] and [t_updated].  A clash on the primary key
    raises an [IntegrityError], which the [except Exception] turns into a
    500. *)
Definition create_post (db : Db) (post : PostBase.t) (rs : nat -> nat)
    (t_created t_updated : timestamp) : Db * response DBPost.t :=
  if is_empty (PostBase.username post) || is_empty (PostBase.content post)
  then (db, bad_request msg_fields)
  else
    let pid := generate_id "p" rs in
    match posts db !! pid with
    | Some _ => (db, server_error (IntegrityError "UNIQUE constraint failed: posts.id"))
    | None =>
        let p := DBPost.mk pid (PostBase.username post) (PostBase.content post)
                   t_created t_updated 0 in
        (set_posts db (<[pid := p]> (posts db)), RBody 201 p)
    end.

(** [POST /api/posts] as FastAPI runs it: the body is parsed into [NewPost]
    first, and a body that fails [min_length=1] never reaches the handler. *)
Definition post_posts (db : Db) (body : PostBase.t) (rs : nat -> nat)
    (t_created t_updated : timestamp) : Db * response DBPost.t :=
  match validate_PostBase body with
  | None => (db, RRequestInvalid)
  | Some post => create_post db post rs t_created t_updated
  end.

(** [get_post] *)
Definition get_post (db : Db) (postId : string) : response DBPost.t :=
  match posts db !! postId with
  | None => not_found "Post not found"
  | Some p => RBody 200 p
  end.

(** The [updatedAt] a PATCH leaves in the row.  The handler assigns
    [username], [content] and [updatedAt = datetime.utcnow()] (the reading
    [now]); the flush writes only the attributes whose new value differs
    from the loaded one.  When [now] equals the stored [updatedAt] while
    [username] or [content] changed, [updatedAt] is not in the UPDATE and
    the column's [onupdate=datetime.utcnow] supplies a second reading
    [t_hook]; when nothing changed no UPDATE is issued. *)
Definition patched_updatedAt (old_username old_content username content : string)
    (old now t_hook : timestamp) : timestamp :=
  if Nat.eqb now old then
    if String.eqb username old_username && String.eqb content old_content
    then old else t_hook
  else now.

(** [update_post]: the row after the commit, which [db.refresh(post)]
    reads back. *)
Definition update_post (db : Db) (postId : string) (post_update : PostBase.t)
    (now t_hook : timestamp) : Db * response DBPost.t :=
  match posts db !! postId with
  | None => (db, not_found "Post not found")
  | Some p =>
      if is_empty (PostBase.username post_update)
         || is_empty (PostBase.content post_update)
      then (db, bad_request msg_fields)
      else
        let p' := DBPost.mk (DBPost.id p) (PostBase.username post_update)
                    (PostBase.content post_update) (DBPost.createdAt p)
                    (patched_updatedAt (DBPost.username p) (DBPost.content p)
                       (PostBase.username post_update) (PostBase.content post_update)
                       (DBPost.updatedAt p) now t_hook)
                    (DBPost.likes p) in
        (set_posts db (<[postId := p']> (posts db)), RBody 200 p')
  end.

(** [delete_post]: [db.delete(post)] with the relationships
    [comments] and [liked_by] declared [cascade="all, delete-orphan"]
    deletes the post's comments and likes with it. *)
Definition delete_post (db : Db) (postId : string) : Db * response unit :=
  match posts db !! postId with
  | None => (db, not_found "Post not found")
  | Some _ =>
      (mkDb (delete postId (posts db))
            (filter (fun kc => DBComment.postId kc.2 <> postId) (comments db))
            (List.filter (fun l => negb (String.eqb (DBLike.postId l) postId))
               (likes db)),
       RBody 204 tt)
  end.

(* ================================================================= *)
(** ** main.py : comment endpoints *)

(** [create_comment]: as for posts, [createdAt] and [updatedAt] come from
    two [default=datetime.utcnow] calls, the readings [t_created] and
    [t_updated]. *)
Definition create_comment (db : Db) (postId : string) (comment : PostBase.t)
    (rs : nat -> nat) (t_created t_updated : timestamp)
    : Db * response DBComment.t :=
  match posts db !! postId with
  | None => (db, not_found "Post not found")
  | Some _ =>
      if is_empty (PostBase.username comment) || is_empty (PostBase.content comment)
      then (db, bad_request msg_fields)
      else
        let cid := generate_id "c" rs in
        match comments db !! cid with
        | Some _ =>
            (db, server_error (IntegrityError "UNIQUE constraint failed: comments.id"))
        | None =>
            let c := DBComment.mk cid postId (PostBase.username comment)
                       (PostBase.content comment) t_created t_updated in
            (set_comments db (<[cid := c]> (comments db)), RBody 201 c)
        end
  end.

(** [db.query(DBComment).filter(DBComment.id == commentId,
    DBComment.postId == postId).first()]: [id] is the primary key. *)
Definition find_comment (db : Db) (postId commentId : string)
    : option DBComment.t :=
  match comments db !! commentId with
  | Some c => if String.eqb (DBComment.postId c) postId then Some c else None
  | None => None
  end.

(** [get_comment] *)
Definition get_comment (db : Db) (postId commentId : string)
    : response DBComment.t :=
  match find_comment db postId commentId with
  | None => not_found "Comment not found"
  | Some c => RBody 200 c
  end.

(** [update_comment]: [updatedAt] as in [update_post]. *)
Definition update_comment (db : Db) (postId commentId : string)
    (comment_update : PostBase.t) (now t_hook : timestamp)
    : Db * response DBComment.t :=
  match find_comment db postId commentId with
  | None => (db, not_found "Comment not found")
  | Some c =>
      if is_empty (PostBase.username comment_update)
         || is_empty (PostBase.content comment_update)
      then (db, bad_request msg_fields)
      else
        let c' := DBComment.mk (DBComment.id c) (DBComment.postId c)
                    (PostBase.username comment_update)
                    (PostBase.content comment_update)
                    (DBComment.createdAt c)
                    (patched_updatedAt (DBComment.username c) (DBComment.content c)
                       (PostBase.username comment_update)
                       (PostBase.content comment_update)
                       (DBComment.updatedAt c) now t_hook) in
        (set_comments db (<[commentId := c']> (comments db)), RBody 200 c')
  end.

(** [delete_comment] *)
Definition delete_comment (db : Db) (postId commentId : string)
    : Db * response unit :=
  match find_comment db postId commentId with
  | None => (db, not_found "Comment not found")
  | Some _ => (set_comments db (delete commentId (comments db)), RBody 204 tt)
  end.

(* ================================================================= *)
(** ** main.py : like endpoints *)

Definition like_matches (postId username : string) (l : DBLike.t) : bool :=
  String.eqb (DBLike.postId l) postId && String.eqb (DBLike.username l) username.

(** [db.query(DBLike).filter(DBLike.postId == postId,
    DBLike.username == username).first()] *)
Definition find_like (db : Db) (postId username : string) : option DBLike.t :=
  List.find (like_matches postId username) (likes db).

#[global] Instance DBLike_eq_dec : EqDecision DBLike.t.
Proof. intros [] []; solve_decision. Defined.

(** [db.delete(like)]: the row found is removed. *)
Fixpoint remove_row (l : DBLike.t) (ls : list DBLike.t) : list DBLike.t :=
  match ls with
  | [] => []
  | l' :: ls' => if decide (l' = l) then ls' else l' :: remove_row l ls'
  end.

(** Setting [post.likes] to [v] through the ORM, where [loaded] is the
    value the request loaded: when [v] differs from it the flush issues
    [UPDATE posts SET likes=?, updatedAt=?], the [updatedAt] column's
    [onupdate=datetime.utcnow] supplying the reading [now]; the other
    columns keep what the row [row] holds.  An unchanged value issues no
    UPDATE. *)
Definition write_likes (row : DBPost.t) (loaded v : Z) (now : timestamp)
    : DBPost.t :=
  if Z.eqb v loaded then row
  else DBPost.mk (DBPost.id row) (DBPost.username row) (DBPost.content row)
         (DBPost.createdAt row) now v.

(** [db.add(db_like); post.likes += 1; db.commit()] against the database
    as it is at commit time.  [post] is the object loaded at the start of
    the request, so the new counter is its [likes] plus one.  The unit of
    work writes the parent [posts] row before the child [likes] row; any
    error rolls the whole transaction back.  Two clock readings are taken:
    [t_hook] by the [onupdate] of [posts.updatedAt] at the UPDATE, [t_like]
    by the [default] of [likes.createdAt] at the INSERT. *)
Definition commit_like (db : Db) (post : DBPost.t) (username : string)
    (t_hook t_like : timestamp) : db_error + Db :=
  let pid := DBPost.id post in
  match posts db !! pid with
  | None => inl StaleDataError
  | Some row =>
      match find_like db pid username with
      | Some _ =>
          inl (IntegrityError "UNIQUE constraint failed: likes.postId, likes.username")
      | None =>
          inr (mkDb (<[pid := write_likes row (DBPost.likes post)
                               (DBPost.likes post + 1) t_hook]> (posts db))
                    (comments db)
                    (likes db ++ [DBLike.mk pid username t_like]))
      end
  end.

(** The reading part of [like_post]: the post lookup, the username check
    and the [existing_like] query. *)
Inductive like_read :=
| LikeDone (r : response DBPost.t)
| LikePending (post : DBPost.t) (existing : bool).

Definition like_post_read (db : Db) (postId : string) (like_request : LikeRequest.t)
    : like_read :=
  match posts db !! postId with
  | None => LikeDone (not_found "Post not found")
  | Some post =>
      if is_empty (LikeRequest.username like_request)
      then LikeDone (bad_request msg_username)
      else LikePending post
             match find_like db postId (LikeRequest.username like_request) with
             | Some _ => true
             | None => false
             end
  end.

(** The writing part of [like_post], run against the database [db] as it is
    when the transaction commits.  After a commit, [db.refresh(post)]
    inside the [try] raises if the row is gone, and the [except Exception]
    answers 500.  On [IntegrityError]: rollback and [db.refresh(post)],
    which answers with the row as it now is; if that refresh raises, the
    exception leaves the [except IntegrityError] clause uncaught.  Any
    other flush error is caught by [except Exception]: rollback and 500. *)
Definition like_post_write (db : Db) (username : string) (post : DBPost.t)
    (existing : bool) (t_hook t_like : timestamp) : Db * response DBPost.t :=
  if existing then (db, RBody 200 post)
  else
    match commit_like db post username t_hook t_like with
    | inr db' =>
        match posts db' !! DBPost.id post with
        | Some p => (db', RBody 200 p)
        | None => (db', server_error InvalidRequestError)
        end
    | inl (IntegrityError _) =>
        match posts db !! DBPost.id post with
        | Some p => (db, RBody 200 p)
        | None => (db, RUnhandled InvalidRequestError)
        end
    | inl e => (db, server_error e)
    end.

(** [like_post], one request running alone. *)
Definition like_post (db : Db) (postId : string) (like_request : LikeRequest.t)
    (t_hook t_like : timestamp) : Db * response DBPost.t :=
  match like_post_read db postId like_request with
  | LikeDone r => (db, r)
  | LikePending post existing =>
      like_post_write db (LikeRequest.username like_request) post existing
        t_hook t_like
  end.

(** [unlike_post]: [post.likes = max(0, post.likes - 1)]; the [onupdate]
    of [updatedAt] takes the reading [now] when the counter changes. *)
Definition unlike_post (db : Db) (postId : string) (like_request : LikeRequest.t)
    (now : timestamp) : Db * response DBPost.t :=
  match posts db !! postId with
  | None => (db, not_found "Post not found")
  | Some post =>
      if is_empty (LikeRequest.username like_request)
      then (db, bad_request msg_username)
      else
        match find_like db postId (LikeRequest.username like_request) with
        | None => (db, RBody 200 post)
        | Some like =>
            let post' := write_likes post (DBPost.likes post)
                           (Z.max 0 (DBPost.likes post - 1)) now in
            (mkDb (<[postId := post']> (posts db)) (comments db)
                  (remove_row like (likes db)),
             RBody 200 post')
        end
  end.

(* ================================================================= *)
(** ** Sequences of requests *)

(** One request, with its random draws and clock readings. *)
Inductive op :=
| OCreatePost (post : PostBase.t) (rs : nat -> nat) (t_created t_updated : timestamp)
| OUpdatePost (postId : string) (post_update : PostBase.t) (now t_hook : timestamp)
| ODeletePost (postId : string)
| OCreateComment (postId : string) (comment : PostBase.t) (rs : nat -> nat)
    (t_created t_updated : timestamp)
| OUpdateComment (postId commentId : string) (comment_update : PostBase.t)
    (now t_hook : timestamp)
| ODeleteComment (postId commentId : string)
| OLike (postId : string) (like_request : LikeRequest.t) (t_hook t_like : timestamp)
| OUnlike (postId : string) (like_request : LikeRequest.t) (now : timestamp).

Definition exec (db : Db) (o : op) : Db :=
  match o with
  | OCreatePost p rs tc tu => fst (create_post db p rs tc tu)
  | OUpdatePost pid u now th => fst (update_post db pid u now th)
  | ODeletePost pid => fst (delete_post db pid)
  | OCreateComment pid c rs tc tu => fst (create_comment db pid c rs tc tu)
  | OUpdateComment pid cid u now th => fst (update_comment db pid cid u now th)
  | ODeleteComment pid cid => fst (delete_comment db pid cid)
  | OLike pid r th tl => fst (like_post db pid r th tl)
  | OUnlike pid r now => fst (unlike_post db pid r now)
  end.

Definition run (db : Db) (os : list op) : Db := fold_left exec os db.

(** The number of [likes] rows of a post. *)
Definition count_likes (db : Db) (postId : string) : nat :=
  List.length (List.filter (fun l => String.eqb (DBLike.postId l) postId) (likes db)).

(** [Post.likes] agrees with the rows of [likes] for every post. *)
Definition likes_consistent (db : Db) : Prop :=
  forall pid p, posts db !! pid = Some p ->
    DBPost.likes p = Z.of_nat (count_likes db pid).

(* ================================================================= *)
(** ** Small runs *)

Definition rs0 : nat -> nat := fun _ => 0%nat.
Definition alice : LikeRequest.t := LikeRequest.mk "alice".
Definition db_one : Db :=
  fst (create_post empty_db (PostBase.mk "alice" "hi") rs0 5 5).

Definition post_one : DBPost.t := DBPost.mk "p_aaaaaaaa" "alice" "hi" 5 5 0.

(** A post with one comment and one like. *)
Definition db_busy : Db :=
  run db_one [OCreateComment "p_aaaaaaaa" (PostBase.mk "bob" "nice") rs0 6 6;
              OLike "p_aaaaaaaa" alice 7 7].

(** [db] without the comment [commentId]. *)
Definition without_comment (db : Db) (commentId : string) : Db :=
  set_comments db (delete commentId (comments db)).

(** The claim as the spec states it for posts: a successful PATCH leaves
    [updatedAt] strictly later than it was. *)
Definition patch_post_strictly_later : Prop :=
  forall db pid body now t_hook p p',
    posts db !! pid = Some p ->
    snd (update_post db pid body now t_hook) = RBody 200 p' ->
    (DBPost.updatedAt p < DBPost.updatedAt p')%nat.

(** [p'] keeps the columns [id], [username], [content], [createdAt] of [p]. *)
Definition same_frame (p p' : DBPost.t) : Prop :=
  DBPost.id p' = DBPost.id p /\ DBPost.username p' = DBPost.username p
  /\ DBPost.content p' = DBPost.content p /\ DBPost.createdAt p' = DBPost.createdAt p.

(** Every row of [posts] is stored under its own [id]. *)
Definition keys_ok (db : Db) : Prop :=
  forall pid p, posts db !! pid = Some p -> DBPost.id p = pid.

(** Every [likes] row refers to an existing post. *)
Definition likes_refer (db : Db) : Prop :=
  forall l, In l (likes db) -> is_Some (posts db !! DBLike.postId l).

Definition db_inv (db : Db) : Prop :=
  keys_ok db /\ likes_refer db /\ likes_consistent db.

(** [list_posts]: [db.query(DBPost).all()].  The row order of the SELECT
    is not modelled (the map's own order stands for it); the statements
    about it only use membership. *)
Definition list_posts (db : Db) : response (list DBPost.t) :=
  RBody 200 (snd <$> map_to_list (posts db)).

(** [list_comments]: the post lookup, then
    [db.query(DBComment).filter(DBComment.postId == postId).all()] (row
    order not modelled, as for [list_posts]). *)
Definition list_comments (db : Db) (postId : string)
    : response (list DBComment.t) :=
  match posts db !! postId with
  | None => not_found "Post not found"
  | Some _ =>
      RBody 200 (snd <$> map_to_list
                   (filter (fun kc => DBComment.postId kc.2 = postId) (comments db)))
  end.

(** Every comment is stored under its own [id] and belongs to an existing
    post. *)
Definition comments_refer (db : Db) : Prop :=
  forall cid c, comments db !! cid = Some c ->
    DBComment.id c = cid /\ is_Some (posts db !! DBComment.postId c).

(** At most one [likes] row per [(postId, username)]. *)
Definition likes_unique (db : Db) : Prop :=
  forall pid u, (List.length (List.filter (like_matches pid u) (likes db)) <= 1)%nat.

Example generate_id_rs0 : generate_id "p" rs0 = "p_aaaaaaaa"%string.
Proof. reflexivity. Qed.

Example like_twice_run :
  option_map DBPost.likes
    (posts (run db_one [OLike "p_aaaaaaaa" alice 7 7; OLike "p_aaaaaaaa" alice 9 9])
       !! "p_aaaaaaaa"%string) = Some 1.
Proof. vm_compute. reflexivity. Qed.

Example like_unlike_run :
  option_map DBPost.likes
    (posts (run db_one [OLike "p_aaaaaaaa" alice 7 7; OUnlike "p_aaaaaaaa" alice 9;
                        OUnlike "p_aaaaaaaa" alice 10])
       !! "p_aaaaaaaa"%string) = Some 0.
Proof. vm_compute. reflexivity. Qed.

(* ================================================================= *)
(** ** Identifiers *)

Lemma length_string_of_list_ascii (l : list ascii) :
  String.length (string_of_list_ascii l) = List.length l.
Proof. induction l as [|a l IH]; simpl; congruence. Qed.

Lemma get_in (n : nat) (s : string) (a : ascii) :
  String.get n s = Some a -> In a (list_ascii_of_string s).
Proof.
  revert n. induction s as [|b s IH]; intros n H; [discriminate|].
  destruct n as [|n]; simpl in *.
  - injection H as ->. left. reflexivity.
  - right. eapply IH. exact H.
Qed.

Lemma get_lt (n : nat) (s : string) :
  (n < String.length s)%nat -> exists a, String.get n s = Some a.
Proof.
  revert n. induction s as [|b s IH]; intros n H; simpl in H; [lia|].
  destruct n as [|n]; simpl; [eauto|]. apply IH. lia.
Qed.

Lemma choice_in_chars (r : nat) : In (choice chars r) (list_ascii_of_string chars).
Proof.
  unfold choice.
  destruct (get_lt (Nat.modulo r (String.length chars)) chars) as [a Ha].
  { apply Nat.mod_upper_bound. discriminate. }
  rewrite Ha. eapply get_in. exact Ha.
Qed.

Lemma chars_id_chars : forallb is_id_char (list_ascii_of_string chars) = true.
Proof. reflexivity. Qed.

Lemma random_part_chars (rs : nat -> nat) :
  Forall (fun a => In a (list_ascii_of_string chars))
    (list_ascii_of_string (random_part rs)).
Proof.
  unfold random_part. rewrite list_ascii_of_string_of_list_ascii.
  apply List.Forall_forall. intros a Ha. apply in_map_iff in Ha as (i & <- & _).
  apply choice_in_chars.
Qed.

Lemma random_part_id_chars (rs : nat -> nat) :
  forallb is_id_char (list_ascii_of_string (random_part rs)) = true.
Proof.
  apply forallb_forall. intros a Ha.
  pose proof (random_part_chars rs) as HF. rewrite List.Forall_forall in HF.
  pose proof chars_id_chars as HC. rewrite forallb_forall in HC.
  apply HC, HF, Ha.
Qed.

(** C8: [generate_id(prefix)] is [prefix ++ "_" ++ token] with a token of
    exactly 8 characters taken from [chars] (letters, digits, [_], [-]);
    the ids of posts (prefix [p]) and comments (prefix [c]) match
    [^[A-Za-z0-9_-]+$]. *)
Theorem generate_id_shape (prefix : string) (rs : nat -> nat) :
  (exists token,
      generate_id prefix rs = String.append prefix (String.append "_" token)
      /\ String.length token = 8%nat
      /\ Forall (fun a => In a (list_ascii_of_string chars))
           (list_ascii_of_string token))
  /\ id_matches (generate_id "p" rs) = true
  /\ id_matches (generate_id "c" rs) = true.
Proof.
  split; [|split].
  - exists (random_part rs). split; [reflexivity|]. split.
    + unfold random_part. rewrite length_string_of_list_ascii.
      rewrite length_map, length_seq. reflexivity.
    + apply random_part_chars.
  - unfold id_matches, generate_id. simpl. apply random_part_id_chars.
  - unfold id_matches, generate_id. simpl. apply random_part_id_chars.
Qed.

(* ================================================================= *)
(** ** Like rows *)

Lemma like_matches_refl (pid u : string) (t : timestamp) :
  like_matches pid u (DBLike.mk pid u t) = true.
Proof. unfold like_matches. simpl. rewrite !String.eqb_refl. reflexivity. Qed.

Lemma find_app_last {A} (f : A -> bool) (l : list A) (x : A) :
  f x = true -> exists y, List.find f (l ++ [x]) = Some y.
Proof.
  intros Hx. induction l as [|a l IH]; simpl.
  - rewrite Hx. eauto.
  - destruct (f a); eauto.
Qed.

Lemma find_like_appended (db : Db) (ps : gmap string DBPost.t)
    (cs : gmap string DBComment.t) (pid u : string) (t : timestamp) :
  exists y, find_like (mkDb ps cs (likes db ++ [DBLike.mk pid u t])) pid u = Some y.
Proof. unfold find_like. simpl. apply find_app_last, like_matches_refl. Qed.

(** The answer of [get_post] on a post that exists. *)
Lemma get_post_some (db : Db) (pid : string) (p : DBPost.t) :
  posts db !! pid = Some p -> get_post db pid = RBody 200 p.
Proof. intros H. unfold get_post. rewrite H. reflexivity. Qed.

(** C1: liking an existing post twice with the same non-empty username
    leaves the database as liking it once and answers 200 with the post as
    it is; the same holds when two requests race, both reading before
    either commits, and the second hits [IntegrityError] at its commit. *)
Theorem like_post_idempotent (db : Db) (pid : string) (p : DBPost.t)
    (req : LikeRequest.t) (h1 l1 h2 l2 : timestamp) :
  posts db !! pid = Some p -> DBPost.id p = pid ->
  is_empty (LikeRequest.username req) = false ->
  let db1 := fst (like_post db pid req h1 l1) in
  (exists p1, posts db1 !! pid = Some p1
              /\ snd (like_post db pid req h1 l1) = RBody 200 p1)
  /\ like_post db1 pid req h2 l2 = (db1, get_post db1 pid)
  /\ (exists post existing,
        like_post_read db pid req = LikePending post existing
        /\ like_post_write db1 (LikeRequest.username req) post existing h2 l2
           = (db1, get_post db1 pid)).
Proof.
  intros Hp Hid Hu db1. subst db1.
  unfold like_post. set (u := LikeRequest.username req).
  assert (Hread : like_post_read db pid req
                  = LikePending p (match find_like db pid u with
                                   | Some _ => true | None => false end)).
  { unfold like_post_read. rewrite Hp, Hu. reflexivity. }
  rewrite Hread.
  destruct (find_like db pid u) as [l|] eqn:Hl.
  - cbn [like_post_write fst snd]. rewrite Hread.
    cbn [like_post_write fst snd]. rewrite (get_post_some _ _ _ Hp).
    split; [eauto|]. split; [reflexivity|]. eauto.
  - set (p1 := write_likes p (DBPost.likes p) (DBPost.likes p + 1) h1).
    set (db1 := mkDb (<[pid:=p1]> (posts db)) (comments db)
                  (likes db ++ [DBLike.mk pid u l1])).
    assert (Hp1 : posts db1 !! pid = Some p1) by apply lookup_insert_eq.
    destruct (find_like_appended db (<[pid:=p1]> (posts db)) (comments db)
                pid u l1) as [y Hy].
    fold db1 in Hy.
    assert (Hw : like_post_write db u p false h1 l1 = (db1, RBody 200 p1)).
    { unfold like_post_write, commit_like. rewrite Hid, Hp, Hl. simpl.
      rewrite lookup_insert_eq. reflexivity. }
    assert (Hread1 : like_post_read db1 pid req = LikePending p1 true).
    { unfold like_post_read. rewrite Hp1, Hu. fold u. rewrite Hy. reflexivity. }
    cbv beta iota. rewrite Hw. cbn [fst snd].
    rewrite Hread1. cbv beta iota. rewrite (get_post_some _ _ _ Hp1).
    split; [eauto|]. split; [reflexivity|].
    exists p, false. split; [reflexivity|].
    unfold like_post_write, commit_like. rewrite Hid, Hp1, Hy. reflexivity.
Qed.

Lemma like_post_idempotent_witness :
  let db1 := fst (like_post db_one "p_aaaaaaaa" alice 7 7) in
  (exists p1, posts db1 !! "p_aaaaaaaa"%string = Some p1
              /\ snd (like_post db_one "p_aaaaaaaa" alice 7 7) = RBody 200 p1)
  /\ like_post db1 "p_aaaaaaaa" alice 9 9 = (db1, get_post db1 "p_aaaaaaaa")
  /\ (exists post existing,
        like_post_read db_one "p_aaaaaaaa" alice = LikePending post existing
        /\ like_post_write db1 (LikeRequest.username alice) post existing 9 9
           = (db1, get_post db1 "p_aaaaaaaa")).
Proof.
  apply (like_post_idempotent db_one "p_aaaaaaaa" post_one alice 7 7 9 9);
    vm_compute; reflexivity.
Defined.

(* ================================================================= *)
(** ** Unliking a post that was not liked *)

(** C3: on an existing post, with a non-empty username that has no [likes]
    row for it, [unlike_post] changes nothing and answers 200 with the post
    as it is. *)
Theorem unlike_post_absent_noop (db : Db) (pid : string) (p : DBPost.t)
    (req : LikeRequest.t) (now : timestamp) :
  posts db !! pid = Some p ->
  is_empty (LikeRequest.username req) = false ->
  find_like db pid (LikeRequest.username req) = None ->
  unlike_post db pid req now = (db, RBody 200 p)
  /\ get_post db pid = RBody 200 p.
Proof.
  intros Hp Hu Hl. split.
  - unfold unlike_post. rewrite Hp, Hu, Hl. reflexivity.
  - apply get_post_some. exact Hp.
Qed.

Lemma unlike_post_absent_noop_witness :
  unlike_post db_one "p_aaaaaaaa" alice 7 = (db_one, RBody 200 post_one)
  /\ get_post db_one "p_aaaaaaaa" = RBody 200 post_one.
Proof.
  apply (unlike_post_absent_noop db_one "p_aaaaaaaa" post_one alice 7);
    vm_compute; reflexivity.
Defined.

(* ================================================================= *)
(** ** Deleting a post *)

(** C5: deleting an existing post answers 204 and removes its comments and
    its [likes] rows: afterwards [get_post] and [get_comment] on any of its
    former comments answer 404, and no [likes] row refers to it. *)
Theorem delete_post_cascade (db : Db) (pid : string) (p : DBPost.t) :
  posts db !! pid = Some p ->
  let db' := fst (delete_post db pid) in
  snd (delete_post db pid) = RBody 204 tt
  /\ get_post db' pid = not_found "Post not found"
  /\ (forall cid c, comments db !! cid = Some c -> DBComment.postId c = pid ->
        comments db' !! cid = None
        /\ forall pid', get_comment db' pid' cid = not_found "Comment not found")
  /\ (forall l, In l (likes db') -> DBLike.postId l <> pid).
Proof.
  intros Hp db'. subst db'. unfold delete_post. rewrite Hp. simpl.
  split; [reflexivity|]. split.
  - unfold get_post. simpl. rewrite lookup_delete_eq. reflexivity.
  - split.
    + intros cid c Hc Hpc.
      assert (Hgone : filter (fun kc => DBComment.postId kc.2 <> pid) (comments db)
                        !! cid = None).
      { apply map_lookup_filter_None. right. intros c' Hc'.
        rewrite Hc in Hc'. injection Hc' as <-. simpl. tauto. }
      split; [exact Hgone|].
      intros pid'. unfold get_comment, find_comment. simpl.
      rewrite Hgone. reflexivity.
    + intros l Hl. apply filter_In in Hl as [_ Hl].
      intros Heq. rewrite Heq, String.eqb_refl in Hl. discriminate.
Qed.

Example db_busy_rows :
  List.length (map_to_list (comments db_busy)) = 1%nat
  /\ List.length (likes db_busy) = 1%nat.
Proof. vm_compute. split; reflexivity. Qed.

Lemma delete_post_cascade_witness :
  let db' := fst (delete_post db_busy "p_aaaaaaaa") in
  snd (delete_post db_busy "p_aaaaaaaa") = RBody 204 tt
  /\ get_post db' "p_aaaaaaaa" = not_found "Post not found"
  /\ (forall cid c, comments db_busy !! cid = Some c ->
        DBComment.postId c = "p_aaaaaaaa"%string ->
        comments db' !! cid = None
        /\ forall pid', get_comment db' pid' cid = not_found "Comment not found")
  /\ (forall l, In l (likes db') -> DBLike.postId l <> "p_aaaaaaaa"%string).
Proof.
  apply (delete_post_cascade db_busy "p_aaaaaaaa"
           (DBPost.mk "p_aaaaaaaa" "alice" "hi" 5 7 1)).
  vm_compute. reflexivity.
Defined.

(* ================================================================= *)
(** ** Comments looked up under another post *)

(** C9: when the comment [cid] exists but belongs to another post than the
    path's [pid], [get_comment], [update_comment] and [delete_comment]
    answer 404 [NOT_FOUND], change nothing, and answer exactly as they do
    on the database without that comment. *)
Theorem comment_of_other_post_not_found (db : Db) (pid cid : string)
    (c : DBComment.t) (body : PostBase.t) (now t_hook : timestamp) :
  comments db !! cid = Some c -> DBComment.postId c <> pid ->
  let db0 := without_comment db cid in
  get_comment db pid cid = not_found "Comment not found"
  /\ update_comment db pid cid body now t_hook = (db, not_found "Comment not found")
  /\ delete_comment db pid cid = (db, not_found "Comment not found")
  /\ get_comment db0 pid cid = get_comment db pid cid
  /\ update_comment db0 pid cid body now t_hook
     = (db0, snd (update_comment db pid cid body now t_hook))
  /\ delete_comment db0 pid cid = (db0, snd (delete_comment db pid cid)).
Proof.
  intros Hc Hne db0.
  assert (Hf : find_comment db pid cid = None).
  { unfold find_comment. rewrite Hc.
    destruct (String.eqb_spec (DBComment.postId c) pid); [contradiction|].
    reflexivity. }
  assert (Hf0 : find_comment db0 pid cid = None).
  { unfold find_comment, db0, without_comment. simpl.
    rewrite lookup_delete_eq. reflexivity. }
  unfold get_comment, update_comment, delete_comment.
  rewrite Hf, Hf0. repeat split.
Qed.

Lemma comment_of_other_post_not_found_witness :
  let db := fst (create_comment db_one "p_aaaaaaaa" (PostBase.mk "bob" "nice")
                   rs0 6 6) in
  let db0 := without_comment db "c_aaaaaaaa" in
  get_comment db "p_other" "c_aaaaaaaa" = not_found "Comment not found"
  /\ update_comment db "p_other" "c_aaaaaaaa" (PostBase.mk "bob" "edit") 8 8
     = (db, not_found "Comment not found")
  /\ delete_comment db "p_other" "c_aaaaaaaa" = (db, not_found "Comment not found")
  /\ get_comment db0 "p_other" "c_aaaaaaaa" = get_comment db "p_other" "c_aaaaaaaa"
  /\ update_comment db0 "p_other" "c_aaaaaaaa" (PostBase.mk "bob" "edit") 8 8
     = (db0, snd (update_comment db "p_other" "c_aaaaaaaa"
                    (PostBase.mk "bob" "edit") 8 8))
  /\ delete_comment db0 "p_other" "c_aaaaaaaa"
     = (db0, snd (delete_comment db "p_other" "c_aaaaaaaa")).
Proof.
  apply (comment_of_other_post_not_found _ "p_other" "c_aaaaaaaa"
           (DBComment.mk "c_aaaaaaaa" "p_aaaaaaaa" "bob" "nice" 6 6)).
  - vm_compute. reflexivity.
  - discriminate.
Defined.

(* ================================================================= *)
(** ** updatedAt on PATCH *)

(** C6 (counterexample): the handler's [datetime.utcnow()] is a wall-clock
    reading; a PATCH whose reading is earlier than the post's [updatedAt]
    (a clock stepped back) writes that earlier value. *)
Lemma update_post_earlier_reading : ~ patch_post_strictly_later.
Proof.
  intros H.
  specialize (H db_one "p_aaaaaaaa" (PostBase.mk "alice" "edited") 3%nat 6%nat post_one
                (DBPost.mk "p_aaaaaaaa" "alice" "edited" 5 3 0)).
  assert (Hlt : (5 < 3)%nat).
  { apply H; vm_compute; reflexivity. }
  lia.
Qed.

(** C6 (amended): a successful PATCH of a post or a comment keeps
    [createdAt] and takes [updatedAt] from the clock readings of the
    request: the handler's reading [now] when it differs from the stored
    [updatedAt]; the [onupdate] hook's reading [t_hook] when [now] equals
    the stored value and [username] or [content] changes; and when nothing
    changes the row stays as it was.  Nothing orders these readings after
    the stored [updatedAt]. *)
Theorem patch_updatedAt_from_readings (db : Db) (pid cid : string)
    (body : PostBase.t) (now t_hook : timestamp) :
  (forall p p', posts db !! pid = Some p ->
     snd (update_post db pid body now t_hook) = RBody 200 p' ->
     posts (fst (update_post db pid body now t_hook)) !! pid = Some p'
     /\ DBPost.createdAt p' = DBPost.createdAt p
     /\ (now <> DBPost.updatedAt p -> DBPost.updatedAt p' = now)
     /\ (now = DBPost.updatedAt p ->
         PostBase.username body <> DBPost.username p
         \/ PostBase.content body <> DBPost.content p ->
         DBPost.updatedAt p' = t_hook)
     /\ (now = DBPost.updatedAt p ->
         PostBase.username body = DBPost.username p ->
         PostBase.content body = DBPost.content p -> p' = p))
  /\ (forall c c', comments db !! cid = Some c ->
     snd (update_comment db pid cid body now t_hook) = RBody 200 c' ->
     comments (fst (update_comment db pid cid body now t_hook)) !! cid = Some c'
     /\ DBComment.createdAt c' = DBComment.createdAt c
     /\ (now <> DBComment.updatedAt c -> DBComment.updatedAt c' = now)
     /\ (now = DBComment.updatedAt c ->
         PostBase.username body <> DBComment.username c
         \/ PostBase.content body <> DBComment.content c ->
         DBComment.updatedAt c' = t_hook)
     /\ (now = DBComment.updatedAt c ->
         PostBase.username body = DBComment.username c ->
         PostBase.content body = DBComment.content c -> c' = c)).
Proof.
  split.
  - intros p p' Hp. unfold update_post. rewrite Hp.
    destruct (is_empty (PostBase.username body) || is_empty (PostBase.content body));
      [discriminate|].
    simpl. intros Hr. injection Hr as <-. simpl.
    rewrite lookup_insert_eq. unfold patched_updatedAt.
    split; [reflexivity|]. split; [reflexivity|]. split; [|split].
    + intros Hne. apply Nat.eqb_neq in Hne. rewrite Hne. reflexivity.
    + intros -> Hch. rewrite Nat.eqb_refl.
      destruct (String.eqb_spec (PostBase.username body) (DBPost.username p)),
        (String.eqb_spec (PostBase.content body) (DBPost.content p));
        simpl; tauto.
    + intros -> Hu Hc. rewrite Nat.eqb_refl, Hu, Hc, !String.eqb_refl.
      destruct p; reflexivity.
  - intros c c' Hc. unfold update_comment, find_comment. rewrite Hc.
    destruct (String.eqb (DBComment.postId c) pid); [|discriminate].
    destruct (is_empty (PostBase.username body) || is_empty (PostBase.content body));
      [discriminate|].
    simpl. intros Hr. injection Hr as <-. simpl.
    rewrite lookup_insert_eq. unfold patched_updatedAt.
    split; [reflexivity|]. split; [reflexivity|]. split; [|split].
    + intros Hne. apply Nat.eqb_neq in Hne. rewrite Hne. reflexivity.
    + intros -> Hch. rewrite Nat.eqb_refl.
      destruct (String.eqb_spec (PostBase.username body) (DBComment.username c)),
        (String.eqb_spec (PostBase.content body) (DBComment.content c));
        simpl; tauto.
    + intros -> Hu Hc'. rewrite Nat.eqb_refl, Hu, Hc', !String.eqb_refl.
      destruct c; reflexivity.
Qed.

Lemma patch_updatedAt_from_readings_witness :
  let p' := DBPost.mk "p_aaaaaaaa" "alice" "edited" 5 6 0 in
  posts (fst (update_post db_one "p_aaaaaaaa" (PostBase.mk "alice" "edited") 5 6))
    !! "p_aaaaaaaa"%string = Some p'
  /\ DBPost.createdAt p' = DBPost.createdAt post_one
  /\ (5%nat <> DBPost.updatedAt post_one -> DBPost.updatedAt p' = 5%nat)
  /\ (5%nat = DBPost.updatedAt post_one ->
      "alice"%string <> DBPost.username post_one
      \/ "edited"%string <> DBPost.content post_one ->
      DBPost.updatedAt p' = 6%nat)
  /\ (5%nat = DBPost.updatedAt post_one ->
      "alice"%string = DBPost.username post_one ->
      "edited"%string = DBPost.content post_one -> p' = post_one).
Proof.
  apply (proj1 (patch_updatedAt_from_readings db_one "p_aaaaaaaa" "c_none"
                  (PostBase.mk "alice" "edited") 5 6));
    vm_compute; reflexivity.
Defined.

(* ================================================================= *)
(** ** What a like or an unlike writes *)

Lemma write_likes_frame (row : DBPost.t) (v : Z) (now : timestamp) :
  same_frame row (write_likes row (DBPost.likes row) v now)
  /\ DBPost.likes (write_likes row (DBPost.likes row) v now) = v
  /\ (v <> DBPost.likes row -> DBPost.updatedAt (write_likes row (DBPost.likes row) v now) = now)
  /\ (DBPost.updatedAt (write_likes row (DBPost.likes row) v now) = now
      \/ DBPost.updatedAt (write_likes row (DBPost.likes row) v now) = DBPost.updatedAt row).
Proof.
  unfold write_likes, same_frame.
  destruct (Z.eqb_spec v (DBPost.likes row)) as [E|E]; simpl.
  - repeat split; auto. intros C. contradiction.
  - repeat split; auto.
Qed.

(** C10: a [like_post] that inserts a new row and an [unlike_post] that
    deletes one only write the post's [likes] counter and its [updatedAt]
    (set by the [onupdate] hook when the counter changes); [id],
    [username], [content] and [createdAt] stay, and other posts are
    untouched. *)
Theorem like_unlike_frame (db : Db) (pid : string) (p : DBPost.t)
    (req : LikeRequest.t) (now t_like : timestamp) :
  posts db !! pid = Some p -> DBPost.id p = pid ->
  is_empty (LikeRequest.username req) = false ->
  (find_like db pid (LikeRequest.username req) = None ->
   exists p', posts (fst (like_post db pid req now t_like)) !! pid = Some p'
     /\ same_frame p p'
     /\ DBPost.likes p' = DBPost.likes p + 1
     /\ DBPost.updatedAt p' = now
     /\ forall pid', pid' <> pid ->
          posts (fst (like_post db pid req now t_like)) !! pid' = posts db !! pid')
  /\ (forall l, find_like db pid (LikeRequest.username req) = Some l ->
   exists p', posts (fst (unlike_post db pid req now)) !! pid = Some p'
     /\ same_frame p p'
     /\ DBPost.likes p' = Z.max 0 (DBPost.likes p - 1)
     /\ (DBPost.updatedAt p' = now \/ DBPost.updatedAt p' = DBPost.updatedAt p)
     /\ forall pid', pid' <> pid ->
          posts (fst (unlike_post db pid req now)) !! pid' = posts db !! pid').
Proof.
  intros Hp Hid Hu. split.
  - intros Hl. unfold like_post, like_post_read. rewrite Hp, Hu, Hl.
    cbv beta iota. unfold like_post_write, commit_like. rewrite Hid, Hp, Hl.
    simpl. rewrite lookup_insert_eq. simpl.
    destruct (write_likes_frame p (DBPost.likes p + 1) now) as (Hf & Hv & Hn & _).
    exists (write_likes p (DBPost.likes p) (DBPost.likes p + 1) now).
    split; [apply lookup_insert_eq|]. split; [exact Hf|]. split; [exact Hv|].
    split; [apply Hn; lia|].
    intros pid' Hne. apply lookup_insert_ne. congruence.
  - intros l Hl. unfold unlike_post. rewrite Hp, Hu, Hl. simpl.
    destruct (write_likes_frame p (Z.max 0 (DBPost.likes p - 1)) now)
      as (Hf & Hv & _ & Ht).
    eexists. split; [apply lookup_insert_eq|]. split; [exact Hf|].
    split; [exact Hv|]. split; [exact Ht|].
    intros pid' Hne. apply lookup_insert_ne. congruence.
Qed.

Lemma like_unlike_frame_witness :
  (find_like db_one "p_aaaaaaaa" "alice" = None ->
   exists p', posts (fst (like_post db_one "p_aaaaaaaa" alice 7 7))
                !! "p_aaaaaaaa"%string = Some p'
     /\ same_frame post_one p'
     /\ DBPost.likes p' = DBPost.likes post_one + 1
     /\ DBPost.updatedAt p' = 7%nat
     /\ forall pid', pid' <> "p_aaaaaaaa"%string ->
          posts (fst (like_post db_one "p_aaaaaaaa" alice 7 7)) !! pid'
          = posts db_one !! pid')
  /\ (forall l, find_like db_busy "p_aaaaaaaa" "alice" = Some l ->
   exists p', posts (fst (unlike_post db_busy "p_aaaaaaaa" alice 9))
                !! "p_aaaaaaaa"%string = Some p'
     /\ same_frame (DBPost.mk "p_aaaaaaaa" "alice" "hi" 5 7 1) p'
     /\ DBPost.likes p' = Z.max 0 (DBPost.likes (DBPost.mk "p_aaaaaaaa" "alice" "hi" 5 7 1) - 1)
     /\ (DBPost.updatedAt p' = 9%nat
         \/ DBPost.updatedAt p' = DBPost.updatedAt (DBPost.mk "p_aaaaaaaa" "alice" "hi" 5 7 1))
     /\ forall pid', pid' <> "p_aaaaaaaa"%string ->
          posts (fst (unlike_post db_busy "p_aaaaaaaa" alice 9)) !! pid'
          = posts db_busy !! pid').
Proof.
  split.
  - apply (like_unlike_frame db_one "p_aaaaaaaa" post_one alice 7 7);
      vm_compute; reflexivity.
  - apply (like_unlike_frame db_busy "p_aaaaaaaa"
             (DBPost.mk "p_aaaaaaaa" "alice" "hi" 5 7 1) alice 9 9);
      vm_compute; reflexivity.
Defined.

(* ================================================================= *)
(** ** Creating a post with an empty field *)

(** C4 (counterexample): through the endpoint, a body with an empty
    [username] fails the [NewPost] schema and gets FastAPI's 422 answer, not
    the handler's 400 [BAD_REQUEST]. *)
Lemma post_posts_empty_username_not_400 :
  post_posts empty_db (PostBase.mk "" "hi") rs0 5 5 = (empty_db, RRequestInvalid)
  /\ snd (post_posts empty_db (PostBase.mk "" "hi") rs0 5 5)
     <> RError 400 "BAD_REQUEST" msg_fields.
Proof. split; [reflexivity | discriminate]. Qed.

(** C4 (amended): a create-post body with an empty [username] or [content]
    is turned away by the [NewPost] schema before [create_post] runs, with
    the request-validation answer, and no post is created; the handler's
    own check, reached only without that schema, answers 400
    [BAD_REQUEST] "Invalid input for required fields." whatever the other
    field holds, also creating nothing. *)
Theorem create_post_empty_field_rejected (db : Db) (body : PostBase.t)
    (rs : nat -> nat) (t_created t_updated : timestamp) :
  is_empty (PostBase.username body) || is_empty (PostBase.content body) = true ->
  post_posts db body rs t_created t_updated = (db, RRequestInvalid)
  /\ create_post db body rs t_created t_updated = (db, RError 400 "BAD_REQUEST" msg_fields).
Proof.
  intros He. split.
  - unfold post_posts, validate_PostBase.
    destruct (PostBase.username body) as [|a u], (PostBase.content body) as [|b c];
      simpl in *; try discriminate; reflexivity.
  - unfold create_post. rewrite He. reflexivity.
Qed.

Lemma create_post_empty_field_rejected_witness :
  post_posts db_one (PostBase.mk "bob" "") rs0 6 6 = (db_one, RRequestInvalid)
  /\ create_post db_one (PostBase.mk "bob" "") rs0 6 6
     = (db_one, RError 400 "BAD_REQUEST" msg_fields).
Proof.
  apply (create_post_empty_field_rejected db_one (PostBase.mk "bob" "") rs0 6 6).
  reflexivity.
Defined.

(* ================================================================= *)
(** ** The likes counter along a sequence of requests *)

Section Counting.
Variable pid : string.
Let of_post (l : DBLike.t) : bool := String.eqb (DBLike.postId l) pid.

Lemma count_app_row (ls : list DBLike.t) (r : DBLike.t) :
  List.length (List.filter of_post (ls ++ [r]))
  = (List.length (List.filter of_post ls) + if of_post r then 1 else 0)%nat.
Proof.
  rewrite List.filter_app, List.length_app. simpl. destruct (of_post r); simpl; lia.
Qed.

Lemma count_remove_row (l : DBLike.t) (ls : list DBLike.t) :
  In l ls ->
  List.length (List.filter of_post ls)
  = (List.length (List.filter of_post (remove_row l ls))
     + if of_post l then 1 else 0)%nat.
Proof.
  induction ls as [|a ls IH]; intros Hin; [destruct Hin|].
  simpl. destruct (decide (a = l)) as [->|Hne].
  - destruct (of_post l); simpl; lia.
  - destruct Hin as [->|Hin]; [contradiction|].
    specialize (IH Hin). simpl. destruct (of_post a); simpl; lia.
Qed.

Lemma count_without_post (other : string) (ls : list DBLike.t) :
  other <> pid ->
  List.length (List.filter of_post
    (List.filter (fun l => negb (String.eqb (DBLike.postId l) other)) ls))
  = List.length (List.filter of_post ls).
Proof.
  intros Hne. induction ls as [|a ls IH]; [reflexivity|]. cbn [List.filter].
  destruct (String.eqb_spec (DBLike.postId a) other) as [E|E]; cbn [negb].
  - assert (Ha : of_post a = false).
    { unfold of_post. apply String.eqb_neq. congruence. }
    rewrite Ha. exact IH.
  - cbn [List.filter]. destruct (of_post a); cbn [List.length]; rewrite IH;
      reflexivity.
Qed.

Lemma count_no_rows (ls : list DBLike.t) :
  (forall l, In l ls -> DBLike.postId l <> pid) ->
  List.length (List.filter of_post ls) = 0%nat.
Proof.
  induction ls as [|a ls IH]; intros H; [reflexivity|]. simpl.
  unfold of_post at 1.
  destruct (String.eqb_spec (DBLike.postId a) pid) as [E|E].
  - exfalso. apply (H a); [left|]; auto.
  - apply IH. intros l Hl. apply H. right. exact Hl.
Qed.
End Counting.

Lemma remove_row_subset (l x : DBLike.t) (ls : list DBLike.t) :
  In x (remove_row l ls) -> In x ls.
Proof.
  induction ls as [|a ls IH]; simpl; [auto|].
  destruct (decide (a = l)); simpl; intuition.
Qed.

Lemma find_like_some (db : Db) (pid u : string) (l : DBLike.t) :
  find_like db pid u = Some l -> In l (likes db) /\ DBLike.postId l = pid.
Proof.
  unfold find_like. intros H. apply List.find_some in H as [Hin Hm].
  split; [exact Hin|]. unfold like_matches in Hm.
  apply andb_true_iff in Hm as [Hm _]. apply String.eqb_eq. exact Hm.
Qed.

(** The invariant only reads [posts] and [likes]. *)
Lemma db_inv_same (db db' : Db) :
  posts db' = posts db -> likes db' = likes db -> db_inv db -> db_inv db'.
Proof.
  intros Hp Hl (Hk & Hr & Hc). unfold db_inv, keys_ok, likes_refer,
    likes_consistent, count_likes in *. rewrite Hp, Hl. auto.
Qed.

Lemma db_inv_empty : db_inv empty_db.
Proof.
  unfold db_inv, keys_ok, likes_refer, likes_consistent. simpl.
  repeat split; intros ? ?; rewrite ?lookup_empty; try discriminate; contradiction.
Qed.

Ltac unfold_inv :=
  unfold db_inv, keys_ok, likes_refer, likes_consistent, count_likes, set_posts
    in *; cbn [posts comments likes] in *.

Lemma inv_create_post (db : Db) (post : PostBase.t) (rs : nat -> nat)
    (tc tu : timestamp) :
  db_inv db -> db_inv (fst (create_post db post rs tc tu)).
Proof.
  intros Hi. pose proof Hi as (Hk & Hr & Hc). unfold create_post.
  destruct (_ || _); [exact Hi|].
  destruct (posts db !! generate_id "p" rs) as [q|] eqn:Hn; [exact Hi|].
  cbn [fst]. unfold_inv. split; [|split].
  - intros pid' q. rewrite lookup_insert. case_decide as E.
    + intros [= <-]. exact E.
    + apply Hk.
  - intros l Hl. rewrite lookup_insert. case_decide; [eauto|]. apply Hr, Hl.
  - intros pid' q. rewrite lookup_insert. case_decide as E.
    + intros [= <-]. subst pid'. simpl. rewrite count_no_rows; [reflexivity|].
      intros l Hl Heq. destruct (Hr l Hl) as [x Hx]. congruence.
    + apply Hc.
Qed.

Lemma inv_update_post (db : Db) (pid : string) (body : PostBase.t)
    (now th : timestamp) :
  db_inv db -> db_inv (fst (update_post db pid body now th)).
Proof.
  intros Hi. pose proof Hi as (Hk & Hr & Hc). unfold update_post.
  destruct (posts db !! pid) as [p|] eqn:Hp; [|exact Hi].
  destruct (_ || _); [exact Hi|].
  cbn [fst]. unfold_inv. split; [|split].
  - intros pid' q. rewrite lookup_insert. case_decide as E.
    + intros [= <-]. subst pid'. exact (Hk _ _ Hp).
    + apply Hk.
  - intros l Hl. rewrite lookup_insert. case_decide; [eauto|]. apply Hr, Hl.
  - intros pid' q. rewrite lookup_insert. case_decide as E.
    + intros [= <-]. subst pid'. exact (Hc _ _ Hp).
    + apply Hc.
Qed.

Lemma inv_delete_post (db : Db) (pid : string) :
  db_inv db -> db_inv (fst (delete_post db pid)).
Proof.
  intros Hi. pose proof Hi as (Hk & Hr & Hc). unfold delete_post.
  destruct (posts db !! pid) as [p|] eqn:Hp; [|exact Hi].
  cbn [fst]. unfold_inv. split; [|split].
  - intros pid' q. rewrite lookup_delete. case_decide; [discriminate|]. apply Hk.
  - intros l Hl. apply filter_In in Hl as [Hl Hne].
    rewrite lookup_delete. case_decide as E; [|apply Hr, Hl].
    rewrite E, String.eqb_refl in Hne. discriminate.
  - intros pid' q. rewrite lookup_delete. case_decide as E; [discriminate|].
    intros Hq. rewrite count_without_post by exact E. exact (Hc _ _ Hq).
Qed.

Lemma comment_ops_keep (db : Db) (o : op) :
  match o with
  | OCreateComment _ _ _ _ _ | OUpdateComment _ _ _ _ _ | ODeleteComment _ _ =>
      posts (exec db o) = posts db /\ likes (exec db o) = likes db
  | _ => True
  end.
Proof.
  destruct o; try exact I; simpl;
    [unfold create_comment | unfold update_comment | unfold delete_comment];
    repeat case_match; split; reflexivity.
Qed.

(** What a lone [like_post] can leave behind. *)
Lemma like_post_db (db : Db) (pid : string) (req : LikeRequest.t)
    (th tl : timestamp) :
  keys_ok db ->
  fst (like_post db pid req th tl) = db
  \/ exists p, posts db !! pid = Some p
       /\ fst (like_post db pid req th tl)
          = mkDb (<[pid := write_likes p (DBPost.likes p) (DBPost.likes p + 1) th]>
                    (posts db))
                 (comments db)
                 (likes db ++ [DBLike.mk pid (LikeRequest.username req) tl]).
Proof.
  intros Hk. unfold like_post, like_post_read.
  destruct (posts db !! pid) as [p|] eqn:Hp; [|left; reflexivity].
  destruct (is_empty _); [left; reflexivity|].
  destruct (find_like db pid _) as [l|] eqn:Hl; cbv beta iota; [left; reflexivity|].
  unfold like_post_write, commit_like. rewrite (Hk _ _ Hp), Hp, Hl.
  simpl. rewrite lookup_insert_eq. right. exists p. split; reflexivity.
Qed.

(** What a lone [unlike_post] can leave behind. *)
Lemma unlike_post_db (db : Db) (pid : string) (req : LikeRequest.t)
    (now : timestamp) :
  fst (unlike_post db pid req now) = db
  \/ exists p l, posts db !! pid = Some p
       /\ find_like db pid (LikeRequest.username req) = Some l
       /\ fst (unlike_post db pid req now)
          = mkDb (<[pid := write_likes p (DBPost.likes p)
                             (Z.max 0 (DBPost.likes p - 1)) now]>
                    (posts db))
                 (comments db) (remove_row l (likes db)).
Proof.
  unfold unlike_post.
  destruct (posts db !! pid) as [p|] eqn:Hp; [|left; reflexivity].
  destruct (is_empty _); [left; reflexivity|].
  destruct (find_like db pid _) as [l|] eqn:Hl; [|left; reflexivity].
  right. exists p, l. repeat split; reflexivity.
Qed.

Lemma inv_like_post (db : Db) (pid : string) (req : LikeRequest.t)
    (th tl : timestamp) :
  db_inv db -> db_inv (fst (like_post db pid req th tl)).
Proof.
  intros Hi. pose proof Hi as (Hk & Hr & Hc).
  destruct (like_post_db db pid req th tl Hk) as [-> | (p & Hp & ->)]; [exact Hi|].
  destruct (write_likes_frame p (DBPost.likes p + 1) th) as ((Hid & _) & Hv & _).
  unfold_inv. split; [|split].
  - intros pid' q. rewrite lookup_insert. case_decide as E.
    + intros [= <-]. subst pid'. rewrite Hid. exact (Hk _ _ Hp).
    + apply Hk.
  - intros l Hl. apply in_app_or in Hl as [Hl | [<- | []]].
    + rewrite lookup_insert. case_decide; [eauto|]. apply Hr, Hl.
    + simpl. rewrite lookup_insert_eq. eauto.
  - intros pid' q. rewrite count_app_row. cbn beta. simpl DBLike.postId.
    rewrite lookup_insert. case_decide as E.
    + intros [= <-]. subst pid'. rewrite String.eqb_refl, Hv, (Hc _ _ Hp). lia.
    + intros Hq. apply String.eqb_neq in E. rewrite E, (Hc _ _ Hq). lia.
Qed.

Lemma inv_unlike_post (db : Db) (pid : string) (req : LikeRequest.t)
    (now : timestamp) :
  db_inv db -> db_inv (fst (unlike_post db pid req now)).
Proof.
  intros Hi. pose proof Hi as (Hk & Hr & Hc).
  destruct (unlike_post_db db pid req now) as [-> | (p & l & Hp & Hl & ->)];
    [exact Hi|].
  destruct (find_like_some _ _ _ _ Hl) as [Hin Hpl].
  destruct (write_likes_frame p (Z.max 0 (DBPost.likes p - 1)) now)
    as ((Hid & _) & Hv & _).
  unfold_inv. split; [|split].
  - intros pid' q. rewrite lookup_insert. case_decide as E.
    + intros [= <-]. subst pid'. rewrite Hid. exact (Hk _ _ Hp).
    + apply Hk.
  - intros x Hx. apply remove_row_subset in Hx.
    rewrite lookup_insert. case_decide; [eauto|]. apply Hr, Hx.
  - intros pid' q. rewrite lookup_insert. case_decide as E.
    + intros [= <-]. subst pid'.
      pose proof (count_remove_row pid l (likes db) Hin) as Hn. cbn beta in Hn.
      rewrite Hpl, String.eqb_refl in Hn. rewrite Hv, (Hc _ _ Hp), Hn. lia.
    + intros Hq.
      pose proof (count_remove_row pid' l (likes db) Hin) as Hn. cbn beta in Hn.
      rewrite Hpl in Hn. apply String.eqb_neq in E. rewrite E in Hn.
      rewrite (Hc _ _ Hq), Hn. lia.
Qed.

Lemma inv_exec (db : Db) (o : op) : db_inv db -> db_inv (exec db o).
Proof.
  intros Hi. pose proof (comment_ops_keep db o) as Hkeep.
  destruct o; simpl in Hkeep.
  - apply inv_create_post, Hi.
  - apply inv_update_post, Hi.
  - apply inv_delete_post, Hi.
  - destruct Hkeep as [Hp Hl]. exact (db_inv_same _ _ Hp Hl Hi).
  - destruct Hkeep as [Hp Hl]. exact (db_inv_same _ _ Hp Hl Hi).
  - destruct Hkeep as [Hp Hl]. exact (db_inv_same _ _ Hp Hl Hi).
  - apply inv_like_post, Hi.
  - apply inv_unlike_post, Hi.
Qed.

Lemma inv_run (os : list op) : forall db, db_inv db -> db_inv (run db os).
Proof.
  induction os as [|o os IH]; intros db Hi; [exact Hi|].
  simpl. apply IH, inv_exec, Hi.
Qed.

(** C2: along any sequence of requests from the empty database (creating
    posts, then liking and unliking them, and any other request), every
    post's [likes] equals the number of [likes] rows for it. *)
Theorem likes_counts_like_rows (os : list op) :
  likes_consistent (run empty_db os).
Proof. apply (inv_run os empty_db db_inv_empty). Qed.

(** C7: along any sequence of requests from the empty database, no post's
    [likes] counter is negative. *)
Theorem likes_never_negative (os : list op) (pid : string) (p : DBPost.t) :
  posts (run empty_db os) !! pid = Some p -> 0 <= DBPost.likes p.
Proof.
  intros Hp. destruct (inv_run os empty_db db_inv_empty) as (_ & _ & Hc).
  rewrite (Hc _ _ Hp). lia.
Qed.

Lemma likes_never_negative_witness :
  posts (run empty_db [OCreatePost (PostBase.mk "alice" "hi") rs0 5 5;
                       OLike "p_aaaaaaaa" alice 7 7; OUnlike "p_aaaaaaaa" alice 8;
                       OUnlike "p_aaaaaaaa" alice 9])
    !! "p_aaaaaaaa"%string = Some (DBPost.mk "p_aaaaaaaa" "alice" "hi" 5 8 0)
  /\ 0 <= DBPost.likes (DBPost.mk "p_aaaaaaaa" "alice" "hi" 5 8 0).
Proof.
  assert (H : posts (run empty_db [OCreatePost (PostBase.mk "alice" "hi") rs0 5 5;
                       OLike "p_aaaaaaaa" alice 7 7; OUnlike "p_aaaaaaaa" alice 8;
                       OUnlike "p_aaaaaaaa" alice 9])
    !! "p_aaaaaaaa"%string = Some (DBPost.mk "p_aaaaaaaa" "alice" "hi" 5 8 0))
    by (vm_compute; reflexivity).
  split; [exact H|]. exact (likes_never_negative _ _ _ H).
Defined.

(* ================================================================= *)
(** ** Further properties of the handlers *)

Lemma get_post_none (db : Db) (pid : string) :
  posts db !! pid = None -> get_post db pid = not_found "Post not found".
Proof. intros H. unfold get_post. rewrite H. reflexivity. Qed.

(** [create_post] with non-empty fields and a fresh generated id answers
    201 with a post holding the given fields, [likes = 0], [createdAt] and
    [updatedAt] from the two column-default readings; [get_post] then
    returns it, and every other post, the comments and the likes rows are
    as before. *)
Theorem create_post_get_post (db : Db) (body : PostBase.t) (rs : nat -> nat)
    (tc tu : timestamp) :
  is_empty (PostBase.username body) = false ->
  is_empty (PostBase.content body) = false ->
  posts db !! generate_id "p" rs = None ->
  let pid := generate_id "p" rs in
  let p := DBPost.mk pid (PostBase.username body) (PostBase.content body) tc tu 0 in
  let db' := fst (create_post db body rs tc tu) in
  snd (create_post db body rs tc tu) = RBody 201 p
  /\ get_post db' pid = RBody 200 p
  /\ (forall pid', pid' <> pid -> get_post db' pid' = get_post db pid')
  /\ comments db' = comments db /\ likes db' = likes db.
Proof.
  intros Hu Hc Hn. cbv zeta.
  unfold create_post. rewrite Hu, Hc. simpl orb. cbv zeta. rewrite Hn.
  cbn [fst snd]. unfold get_post, set_posts. cbn [posts comments likes].
  split; [reflexivity|]. split.
  - rewrite lookup_insert_eq. reflexivity.
  - split; [|split; reflexivity]. intros pid' Hne.
    rewrite lookup_insert_ne by congruence. reflexivity.
Qed.

Lemma create_post_get_post_witness :
  let pid := generate_id "p" rs0 in
  let p := DBPost.mk pid "alice" "hi" 5 6 0 in
  let db' := fst (create_post empty_db (PostBase.mk "alice" "hi") rs0 5 6) in
  snd (create_post empty_db (PostBase.mk "alice" "hi") rs0 5 6) = RBody 201 p
  /\ get_post db' pid = RBody 200 p
  /\ (forall pid', pid' <> pid -> get_post db' pid' = get_post empty_db pid')
  /\ comments db' = comments empty_db /\ likes db' = likes empty_db.
Proof.
  apply (create_post_get_post empty_db (PostBase.mk "alice" "hi") rs0 5 6);
    reflexivity.
Defined.

(** When the generated id is already taken, [create_post] and
    [create_comment] (with valid input) answer 500 [SERVER_ERROR] with the
    primary key's [IntegrityError] and change nothing: the id is not drawn
    again. *)
Theorem create_id_clash_server_error (db : Db) (pid : string) (body : PostBase.t)
    (rs : nat -> nat) (tc tu : timestamp) :
  is_empty (PostBase.username body) = false ->
  is_empty (PostBase.content body) = false ->
  (is_Some (posts db !! generate_id "p" rs) ->
   create_post db body rs tc tu
   = (db, server_error (IntegrityError "UNIQUE constraint failed: posts.id")))
  /\ (is_Some (posts db !! pid) -> is_Some (comments db !! generate_id "c" rs) ->
   create_comment db pid body rs tc tu
   = (db, server_error (IntegrityError "UNIQUE constraint failed: comments.id"))).
Proof.
  intros Hu Hc. split.
  - intros [q Hq]. unfold create_post. rewrite Hu, Hc, Hq. reflexivity.
  - intros [p Hp] [q Hq]. unfold create_comment. rewrite Hp, Hu, Hc, Hq.
    reflexivity.
Qed.

Lemma create_id_clash_server_error_witness :
  let db := fst (create_comment db_one "p_aaaaaaaa" (PostBase.mk "bob" "nice") rs0 6 6) in
  (is_Some (posts db !! generate_id "p" rs0) ->
   create_post db (PostBase.mk "carol" "again") rs0 8 8
   = (db, server_error (IntegrityError "UNIQUE constraint failed: posts.id")))
  /\ (is_Some (posts db !! "p_aaaaaaaa"%string) ->
      is_Some (comments db !! generate_id "c" rs0) ->
   create_comment db "p_aaaaaaaa" (PostBase.mk "carol" "again") rs0 8 8
   = (db, server_error (IntegrityError "UNIQUE constraint failed: comments.id"))).
Proof.
  apply (create_id_clash_server_error _ "p_aaaaaaaa" (PostBase.mk "carol" "again")
           rs0 8 8); reflexivity.
Defined.

(** The PATCH handlers look the entity up before they check the body: a
    missing post (or a comment not found under the path's post) answers
    404 whatever the body holds; a found one with an empty [username] or
    [content] answers 400 [BAD_REQUEST]; neither changes anything. *)
Theorem patch_error_order (db : Db) (pid cid : string) (body : PostBase.t)
    (now t_hook : timestamp) :
  (posts db !! pid = None ->
   update_post db pid body now t_hook = (db, not_found "Post not found"))
  /\ (is_Some (posts db !! pid) ->
      is_empty (PostBase.username body) || is_empty (PostBase.content body) = true ->
      update_post db pid body now t_hook = (db, bad_request msg_fields))
  /\ (find_comment db pid cid = None ->
      update_comment db pid cid body now t_hook = (db, not_found "Comment not found"))
  /\ (is_Some (find_comment db pid cid) ->
      is_empty (PostBase.username body) || is_empty (PostBase.content body) = true ->
      update_comment db pid cid body now t_hook = (db, bad_request msg_fields)).
Proof.
  split; [|split; [|split]].
  - intros H. unfold update_post. rewrite H. reflexivity.
  - intros [p Hp] He. unfold update_post. rewrite Hp, He. reflexivity.
  - intros H. unfold update_comment. rewrite H. reflexivity.
  - intros [c Hc] He. unfold update_comment. rewrite Hc, He. reflexivity.
Qed.

Lemma patch_error_order_witness :
  let db := fst (create_comment db_one "p_aaaaaaaa" (PostBase.mk "bob" "nice") rs0 6 6) in
  (posts db !! "p_none"%string = None ->
   update_post db "p_none" (PostBase.mk "" "") 8 8 = (db, not_found "Post not found"))
  /\ (is_Some (posts db !! "p_aaaaaaaa"%string) ->
      is_empty "" || is_empty "x" = true ->
      update_post db "p_aaaaaaaa" (PostBase.mk "" "x") 8 8 = (db, bad_request msg_fields))
  /\ (find_comment db "p_aaaaaaaa" "c_none" = None ->
      update_comment db "p_aaaaaaaa" "c_none" (PostBase.mk "" "x") 8 8
      = (db, not_found "Comment not found"))
  /\ (is_Some (find_comment db "p_aaaaaaaa" "c_aaaaaaaa") ->
      is_empty "" || is_empty "x" = true ->
      update_comment db "p_aaaaaaaa" "c_aaaaaaaa" (PostBase.mk "" "x") 8 8
      = (db, bad_request msg_fields)).
Proof.
  split; [|split; [|split]]; intros;
    [apply (patch_error_order _ "p_none" "c_none" (PostBase.mk "" "") 8 8)
    |apply (patch_error_order _ "p_aaaaaaaa" "c_none" (PostBase.mk "" "x") 8 8)
    |apply (patch_error_order _ "p_aaaaaaaa" "c_none" (PostBase.mk "" "x") 8 8)
    |apply (patch_error_order _ "p_aaaaaaaa" "c_aaaaaaaa" (PostBase.mk "" "x") 8 8)];
    auto; vm_compute; eauto.
Defined.

(** A successful [update_post] replaces [username] and [content], keeps
    [id], [createdAt] and [likes], and takes [updatedAt] from the request's
    readings as [patched_updatedAt] does; [get_post] then returns the
    updated post, and other posts, the comments and the likes rows are as
    before. *)
Theorem update_post_get_post (db : Db) (pid : string) (p : DBPost.t)
    (body : PostBase.t) (now t_hook : timestamp) :
  posts db !! pid = Some p ->
  is_empty (PostBase.username body) = false ->
  is_empty (PostBase.content body) = false ->
  let p' := DBPost.mk (DBPost.id p) (PostBase.username body) (PostBase.content body)
              (DBPost.createdAt p)
              (patched_updatedAt (DBPost.username p) (DBPost.content p)
                 (PostBase.username body) (PostBase.content body)
                 (DBPost.updatedAt p) now t_hook)
              (DBPost.likes p) in
  let db' := fst (update_post db pid body now t_hook) in
  snd (update_post db pid body now t_hook) = RBody 200 p'
  /\ get_post db' pid = RBody 200 p'
  /\ (forall pid', pid' <> pid -> get_post db' pid' = get_post db pid')
  /\ comments db' = comments db /\ likes db' = likes db.
Proof.
  intros Hp Hu Hc. cbv zeta. unfold update_post. rewrite Hp, Hu, Hc.
  simpl orb. cbn [fst snd]. unfold get_post, set_posts. cbn [posts comments likes].
  split; [reflexivity|]. split.
  - rewrite lookup_insert_eq. reflexivity.
  - split; [|split; reflexivity]. intros pid' Hne.
    rewrite lookup_insert_ne by congruence. reflexivity.
Qed.

Lemma update_post_get_post_witness :
  let p' := DBPost.mk "p_aaaaaaaa" "alice" "edited" 5 9 0 in
  let db' := fst (update_post db_one "p_aaaaaaaa" (PostBase.mk "alice" "edited") 5 9) in
  snd (update_post db_one "p_aaaaaaaa" (PostBase.mk "alice" "edited") 5 9) = RBody 200 p'
  /\ get_post db' "p_aaaaaaaa" = RBody 200 p'
  /\ (forall pid', pid' <> "p_aaaaaaaa"%string -> get_post db' pid' = get_post db_one pid')
  /\ comments db' = comments db_one /\ likes db' = likes db_one.
Proof.
  apply (update_post_get_post db_one "p_aaaaaaaa" post_one
           (PostBase.mk "alice" "edited") 5 9); vm_compute; reflexivity.
Defined.

Lemma list_comments_elem (db : Db) (pid : string) (p : DBPost.t) (c : DBComment.t) :
  posts db !! pid = Some p ->
  exists cs, list_comments db pid = RBody 200 cs
    /\ (c ∈ cs <-> exists cid, comments db !! cid = Some c /\ DBComment.postId c = pid).
Proof.
  intros Hp. unfold list_comments. rewrite Hp. eexists. split; [reflexivity|].
  rewrite list_elem_of_fmap. split.
  - intros ([cid c'] & -> & Hin). apply elem_of_map_to_list in Hin.
    apply map_lookup_filter_Some in Hin as [Hin Hpid]. simpl in *. eauto.
  - intros (cid & Hc & Hpid). exists (cid, c). split; [reflexivity|].
    apply elem_of_map_to_list, map_lookup_filter_Some. auto.
Qed.

(** [list_comments] answers 404 for a missing post; for an existing one it
    answers 200 with exactly the comments whose [postId] is that post.
    [list_posts] answers 200 with exactly the stored posts. *)
Theorem list_comments_of_post (db : Db) (pid : string) :
  (posts db !! pid = None -> list_comments db pid = not_found "Post not found")
  /\ (is_Some (posts db !! pid) ->
      exists cs, list_comments db pid = RBody 200 cs
        /\ forall c, c ∈ cs <->
             exists cid, comments db !! cid = Some c /\ DBComment.postId c = pid)
  /\ (exists ps, list_posts db = RBody 200 ps
        /\ forall p, p ∈ ps <-> exists pid', posts db !! pid' = Some p).
Proof.
  split; [|split].
  - intros H. unfold list_comments. rewrite H. reflexivity.
  - intros [p Hp]. unfold list_comments. rewrite Hp. eexists. split; [reflexivity|].
    intros c. pose proof (list_comments_elem db pid p c Hp) as (cs & Hl & Hiff).
    unfold list_comments in Hl. rewrite Hp in Hl. injection Hl as <-. exact Hiff.
  - eexists. split; [reflexivity|]. intros p. rewrite list_elem_of_fmap. split.
    + intros ([pid' p'] & -> & Hin). apply elem_of_map_to_list in Hin. eauto.
    + intros (pid' & Hp). exists (pid', p). split; [reflexivity|].
      apply elem_of_map_to_list. exact Hp.
Qed.

Lemma list_comments_of_post_witness :
  (posts db_busy !! "p_none"%string = None ->
   list_comments db_busy "p_none" = not_found "Post not found")
  /\ (is_Some (posts db_busy !! "p_aaaaaaaa"%string) ->
      exists cs, list_comments db_busy "p_aaaaaaaa" = RBody 200 cs
        /\ forall c, c ∈ cs <->
             exists cid, comments db_busy !! cid = Some c
                         /\ DBComment.postId c = "p_aaaaaaaa"%string)
  /\ (exists ps, list_posts db_busy = RBody 200 ps
        /\ forall p, p ∈ ps <-> exists pid', posts db_busy !! pid' = Some p).
Proof.
  split; [|split]; [intros _| intros _|].
  - apply (list_comments_of_post db_busy "p_none"). vm_compute. reflexivity.
  - apply (list_comments_of_post db_busy "p_aaaaaaaa"). vm_compute. eauto.
  - apply (list_comments_of_post db_busy "p_aaaaaaaa").
Defined.

(** [create_comment] answers 404 and changes nothing when the post is
    missing, whatever the body.  On an existing post with non-empty fields
    and a fresh generated id it answers 201 with the new comment, which
    [get_comment] under that post then returns and [list_comments] lists;
    posts and likes rows are untouched. *)
Theorem create_comment_get_comment (db : Db) (pid : string) (body : PostBase.t)
    (rs : nat -> nat) (tc tu : timestamp) :
  (posts db !! pid = None ->
   create_comment db pid body rs tc tu = (db, not_found "Post not found"))
  /\ (is_Some (posts db !! pid) ->
      is_empty (PostBase.username body) = false ->
      is_empty (PostBase.content body) = false ->
      comments db !! generate_id "c" rs = None ->
      let cid := generate_id "c" rs in
      let c := DBComment.mk cid pid (PostBase.username body) (PostBase.content body)
                 tc tu in
      let db' := fst (create_comment db pid body rs tc tu) in
      snd (create_comment db pid body rs tc tu) = RBody 201 c
      /\ get_comment db' pid cid = RBody 200 c
      /\ (exists cs, list_comments db' pid = RBody 200 cs /\ c ∈ cs)
      /\ posts db' = posts db /\ likes db' = likes db).
Proof.
  split.
  - intros H. unfold create_comment. rewrite H. reflexivity.
  - intros [p Hp] Hu Hc Hn. cbv zeta. unfold create_comment.
    rewrite Hp, Hu, Hc. simpl orb. cbv zeta. rewrite Hn. cbn [fst snd].
    set (c := DBComment.mk (generate_id "c" rs) pid (PostBase.username body)
                (PostBase.content body) tc tu).
    set (db' := set_comments db (<[generate_id "c" rs := c]> (comments db))).
    assert (Hc' : comments db' !! generate_id "c" rs = Some c)
      by apply lookup_insert_eq.
    split; [reflexivity|]. split.
    + unfold get_comment, find_comment. rewrite Hc'. simpl.
      rewrite String.eqb_refl. reflexivity.
    + split; [|split; reflexivity].
      destruct (list_comments_elem db' pid p c Hp) as (cs & Hl & Hiff).
      exists cs. split; [exact Hl|]. apply Hiff. eauto.
Qed.

Lemma create_comment_get_comment_witness :
  let cid := generate_id "c" rs0 in
  let c := DBComment.mk cid "p_aaaaaaaa" "bob" "nice" 6 7 in
  let db' := fst (create_comment db_one "p_aaaaaaaa" (PostBase.mk "bob" "nice") rs0 6 7) in
  snd (create_comment db_one "p_aaaaaaaa" (PostBase.mk "bob" "nice") rs0 6 7)
  = RBody 201 c
  /\ get_comment db' "p_aaaaaaaa" cid = RBody 200 c
  /\ (exists cs, list_comments db' "p_aaaaaaaa" = RBody 200 cs /\ c ∈ cs)
  /\ posts db' = posts db_one /\ likes db' = likes db_one.
Proof.
  apply (proj2 (create_comment_get_comment db_one "p_aaaaaaaa"
                  (PostBase.mk "bob" "nice") rs0 6 7));
    vm_compute; eauto.
Defined.

(** A successful [update_comment] replaces [username] and [content], keeps
    [id], [postId] and [createdAt], takes [updatedAt] from the request's
    readings as [patched_updatedAt] does; [get_comment] then returns it, and posts and likes rows are untouched. *)
Theorem update_comment_get_comment (db : Db) (pid cid : string) (c : DBComment.t)
    (body : PostBase.t) (now t_hook : timestamp) :
  find_comment db pid cid = Some c ->
  is_empty (PostBase.username body) = false ->
  is_empty (PostBase.content body) = false ->
  let c' := DBComment.mk (DBComment.id c) (DBComment.postId c)
              (PostBase.username body) (PostBase.content body)
              (DBComment.createdAt c)
              (patched_updatedAt (DBComment.username c) (DBComment.content c)
                 (PostBase.username body) (PostBase.content body)
                 (DBComment.updatedAt c) now t_hook) in
  let db' := fst (update_comment db pid cid body now t_hook) in
  snd (update_comment db pid cid body now t_hook) = RBody 200 c'
  /\ get_comment db' pid cid = RBody 200 c'
  /\ posts db' = posts db /\ likes db' = likes db.
Proof.
  intros Hf Hu Hc. cbv zeta.
  assert (Hpid : DBComment.postId c = pid).
  { unfold find_comment in Hf. destruct (comments db !! cid) as [c0|]; [|discriminate].
    destruct (String.eqb_spec (DBComment.postId c0) pid); [|discriminate].
    injection Hf as <-. assumption. }
  unfold update_comment. rewrite Hf, Hu, Hc. simpl orb. cbn [fst snd].
  split; [reflexivity|]. split; [|split; reflexivity].
  unfold get_comment, find_comment, set_comments. cbn [comments].
  rewrite lookup_insert_eq. simpl. rewrite Hpid, String.eqb_refl. reflexivity.
Qed.

Lemma update_comment_get_comment_witness :
  let c' := DBComment.mk "c_aaaaaaaa" "p_aaaaaaaa" "bob" "edit" 6 9 in
  let db' := fst (update_comment db_busy "p_aaaaaaaa" "c_aaaaaaaa"
                    (PostBase.mk "bob" "edit") 6 9) in
  snd (update_comment db_busy "p_aaaaaaaa" "c_aaaaaaaa" (PostBase.mk "bob" "edit") 6 9)
  = RBody 200 c'
  /\ get_comment db' "p_aaaaaaaa" "c_aaaaaaaa" = RBody 200 c'
  /\ posts db' = posts db_busy /\ likes db' = likes db_busy.
Proof.
  apply (update_comment_get_comment db_busy "p_aaaaaaaa" "c_aaaaaaaa"
           (DBComment.mk "c_aaaaaaaa" "p_aaaaaaaa" "bob" "nice" 6 6)
           (PostBase.mk "bob" "edit") 6 9); vm_compute; reflexivity.
Defined.

(** A successful [delete_comment] answers 204; afterwards [get_comment] of
    that id answers 404 under any post, every other comment is as before,
    and posts and likes rows are untouched. *)
Theorem delete_comment_removes (db : Db) (pid cid : string) (c : DBComment.t) :
  find_comment db pid cid = Some c ->
  let db' := fst (delete_comment db pid cid) in
  snd (delete_comment db pid cid) = RBody 204 tt
  /\ (forall pid', get_comment db' pid' cid = not_found "Comment not found")
  /\ (forall cid', cid' <> cid -> comments db' !! cid' = comments db !! cid')
  /\ posts db' = posts db /\ likes db' = likes db.
Proof.
  intros Hf. cbv zeta. unfold delete_comment. rewrite Hf. cbn [fst snd].
  split; [reflexivity|]. split; [|split; [|split; reflexivity]].
  - intros pid'. unfold get_comment, find_comment, set_comments. cbn [comments].
    rewrite lookup_delete_eq. reflexivity.
  - intros cid' Hne. unfold set_comments. cbn [comments].
    apply lookup_delete_ne. congruence.
Qed.

Lemma delete_comment_removes_witness :
  let db' := fst (delete_comment db_busy "p_aaaaaaaa" "c_aaaaaaaa") in
  snd (delete_comment db_busy "p_aaaaaaaa" "c_aaaaaaaa") = RBody 204 tt
  /\ (forall pid', get_comment db' pid' "c_aaaaaaaa" = not_found "Comment not found")
  /\ (forall cid', cid' <> "c_aaaaaaaa"%string ->
        comments db' !! cid' = comments db_busy !! cid')
  /\ posts db' = posts db_busy /\ likes db' = likes db_busy.
Proof.
  apply (delete_comment_removes db_busy "p_aaaaaaaa" "c_aaaaaaaa"
           (DBComment.mk "c_aaaaaaaa" "p_aaaaaaaa" "bob" "nice" 6 6)).
  vm_compute. reflexivity.
Defined.

(** [delete_post] of a missing post answers 404 and changes nothing.  A
    successful one leaves every other post, every comment of another post
    and every likes row of another post as it was. *)
Theorem delete_post_frame (db : Db) (pid : string) :
  (posts db !! pid = None -> delete_post db pid = (db, not_found "Post not found"))
  /\ (is_Some (posts db !! pid) ->
      let db' := fst (delete_post db pid) in
      (forall pid', pid' <> pid -> posts db' !! pid' = posts db !! pid')
      /\ (forall cid c, comments db !! cid = Some c -> DBComment.postId c <> pid ->
            comments db' !! cid = Some c)
      /\ (forall l, In l (likes db') <-> In l (likes db) /\ DBLike.postId l <> pid)).
Proof.
  split.
  - intros H. unfold delete_post. rewrite H. reflexivity.
  - intros [p Hp]. cbv zeta. unfold delete_post. rewrite Hp. cbn [fst posts comments likes].
    split; [|split].
    + intros pid' Hne. apply lookup_delete_ne. congruence.
    + intros cid c Hc Hne. apply map_lookup_filter_Some. auto.
    + intros l. rewrite filter_In. split.
      * intros [Hl Hn]. split; [exact Hl|]. intros E.
        rewrite E, String.eqb_refl in Hn. discriminate.
      * intros [Hl Hn]. split; [exact Hl|].
        apply negb_true_iff, String.eqb_neq. exact Hn.
Qed.

Lemma delete_post_frame_witness :
  let db' := fst (delete_post db_busy "p_aaaaaaaa") in
  (forall pid', pid' <> "p_aaaaaaaa"%string -> posts db' !! pid' = posts db_busy !! pid')
  /\ (forall cid c, comments db_busy !! cid = Some c ->
        DBComment.postId c <> "p_aaaaaaaa"%string -> comments db' !! cid = Some c)
  /\ (forall l, In l (likes db') <->
        In l (likes db_busy) /\ DBLike.postId l <> "p_aaaaaaaa"%string).
Proof.
  apply (proj2 (delete_post_frame db_busy "p_aaaaaaaa")). vm_compute. eauto.
Defined.

(** [like_post] and [unlike_post] answer 404 and change nothing when the
    post is missing, whatever the username; on an existing post an empty
    username answers 400 "Invalid input for required field 'username'."
    and changes nothing. *)
Theorem like_unlike_errors (db : Db) (pid : string) (req : LikeRequest.t)
    (now t_like : timestamp) :
  (posts db !! pid = None ->
   like_post db pid req now t_like = (db, not_found "Post not found")
   /\ unlike_post db pid req now = (db, not_found "Post not found"))
  /\ (is_Some (posts db !! pid) -> is_empty (LikeRequest.username req) = true ->
   like_post db pid req now t_like = (db, bad_request msg_username)
   /\ unlike_post db pid req now = (db, bad_request msg_username)).
Proof.
  split.
  - intros H. unfold like_post, like_post_read, unlike_post. rewrite H. split; reflexivity.
  - intros [p Hp] He. unfold like_post, like_post_read, unlike_post.
    rewrite Hp, He. split; reflexivity.
Qed.

Lemma like_unlike_errors_witness :
  like_post db_one "p_aaaaaaaa" (LikeRequest.mk "") 7 7
  = (db_one, bad_request msg_username)
  /\ unlike_post db_one "p_aaaaaaaa" (LikeRequest.mk "") 7
     = (db_one, bad_request msg_username).
Proof.
  apply (proj2 (like_unlike_errors db_one "p_aaaaaaaa" (LikeRequest.mk "") 7 7));
    vm_compute; eauto.
Defined.

(* ================================================================= *)
(** ** Referential integrity and uniqueness along a run *)

Lemma count_remove_row_any (f : DBLike.t -> bool) (x : DBLike.t) (ls : list DBLike.t) :
  In x ls ->
  List.length (List.filter f ls)
  = (List.length (List.filter f (remove_row x ls)) + if f x then 1 else 0)%nat.
Proof.
  induction ls as [|a ls IH]; intros Hin; [destruct Hin|].
  simpl. destruct (decide (a = x)) as [->|Hne].
  - destruct (f x); simpl; lia.
  - destruct Hin as [->|Hin]; [contradiction|].
    specialize (IH Hin). simpl. destruct (f a); simpl; lia.
Qed.

Lemma remove_row_count_le (f : DBLike.t -> bool) (x : DBLike.t) (ls : list DBLike.t) :
  (List.length (List.filter f (remove_row x ls)) <= List.length (List.filter f ls))%nat.
Proof.
  induction ls as [|a ls IH]; simpl; [lia|].
  destruct (decide (a = x)); [destruct (f a); simpl; lia|].
  simpl. destruct (f a); simpl; lia.
Qed.

Lemma filter_filter_count_le (f g : DBLike.t -> bool) (ls : list DBLike.t) :
  (List.length (List.filter f (List.filter g ls)) <= List.length (List.filter f ls))%nat.
Proof.
  induction ls as [|a ls IH]; simpl; [lia|].
  destruct (g a); simpl; destruct (f a); simpl; lia.
Qed.

Lemma find_none_count (f : DBLike.t -> bool) (ls : list DBLike.t) :
  List.find f ls = None -> List.length (List.filter f ls) = 0%nat.
Proof.
  induction ls as [|a ls IH]; simpl; [reflexivity|].
  destruct (f a); [discriminate|]. exact IH.
Qed.

Lemma count_zero_find (f : DBLike.t -> bool) (ls : list DBLike.t) :
  List.length (List.filter f ls) = 0%nat -> List.find f ls = None.
Proof.
  induction ls as [|a ls IH]; simpl; [reflexivity|].
  destruct (f a); [discriminate|]. exact IH.
Qed.

Lemma like_matches_row (pid u pid' u' : string) (t : timestamp) :
  like_matches pid' u' (DBLike.mk pid u t) = true -> pid' = pid /\ u' = u.
Proof.
  unfold like_matches. simpl. intros H. apply andb_true_iff in H as [H1 H2].
  apply String.eqb_eq in H1, H2. auto.
Qed.

Lemma is_Some_insert {V} (m : gmap string V) (i k : string) (x : V) :
  is_Some (m !! k) -> is_Some (<[i := x]> m !! k).
Proof. intros H. rewrite lookup_insert. case_decide; eauto. Qed.

(** [like_post_db] with what the inserting branch read. *)
Lemma like_post_db_full (db : Db) (pid : string) (req : LikeRequest.t)
    (th tl : timestamp) :
  keys_ok db ->
  fst (like_post db pid req th tl) = db
  \/ exists p, posts db !! pid = Some p
       /\ find_like db pid (LikeRequest.username req) = None
       /\ fst (like_post db pid req th tl)
          = mkDb (<[pid := write_likes p (DBPost.likes p) (DBPost.likes p + 1) th]>
                    (posts db))
                 (comments db)
                 (likes db ++ [DBLike.mk pid (LikeRequest.username req) tl]).
Proof.
  intros Hk. unfold like_post, like_post_read.
  destruct (posts db !! pid) as [p|] eqn:Hp; [|left; reflexivity].
  destruct (is_empty _); [left; reflexivity|].
  destruct (find_like db pid _) as [l|] eqn:Hl; cbv beta iota; [left; reflexivity|].
  unfold like_post_write, commit_like. rewrite (Hk _ _ Hp), Hp, Hl.
  simpl. rewrite lookup_insert_eq. right. exists p. repeat split; reflexivity.
Qed.

Lemma refer_exec (db : Db) (o : op) :
  db_inv db -> comments_refer db -> comments_refer (exec db o).
Proof.
  intros (Hk & _ & _) Hr. destruct o as
    [post rs tc tu|pid u now th|pid|pid body rs tc tu|pid cid u now th|pid cid
    |pid req th tl|pid req now];
    simpl.
  - unfold create_post. repeat case_match; try exact Hr.
    intros cid c Hc. destruct (Hr cid c Hc) as [Hid Hs].
    split; [exact Hid|]. apply is_Some_insert, Hs.
  - unfold update_post. repeat case_match; try exact Hr.
    intros cid c Hc. destruct (Hr cid c Hc) as [Hid Hs].
    split; [exact Hid|]. apply is_Some_insert, Hs.
  - unfold delete_post. destruct (posts db !! pid); [|exact Hr]. cbn [fst].
    intros cid c Hc. cbn [comments posts] in Hc |- *.
    apply map_lookup_filter_Some in Hc as [Hc Hne]. simpl in Hne.
    destruct (Hr cid c Hc) as [Hid Hs]. split; [exact Hid|].
    rewrite lookup_delete_ne by congruence. exact Hs.
  - unfold create_comment. destruct (posts db !! pid) as [p|] eqn:Hp; [|exact Hr].
    repeat case_match; try exact Hr. cbn [fst].
    intros cid c Hc. unfold set_comments in Hc |- *. cbn [comments posts] in Hc |- *.
    rewrite lookup_insert in Hc. case_decide as E.
    + injection Hc as <-. simpl. split; [exact E|]. rewrite Hp. eauto.
    + exact (Hr cid c Hc).
  - unfold update_comment. destruct (find_comment db pid cid) as [c|] eqn:Hf; [|exact Hr].
    unfold find_comment in Hf. destruct (comments db !! cid) as [c0|] eqn:Hc0;
      [|discriminate].
    destruct (String.eqb (DBComment.postId c0) pid); [|discriminate].
    injection Hf as <-. repeat case_match; try exact Hr. cbn [fst].
    intros cid' c' Hc'. unfold set_comments in Hc' |- *. cbn [comments posts] in Hc' |- *.
    rewrite lookup_insert in Hc'. case_decide as E.
    + injection Hc' as <-. subst cid'. simpl. exact (Hr _ _ Hc0).
    + exact (Hr cid' c' Hc').
  - unfold delete_comment. repeat case_match; try exact Hr. cbn [fst].
    intros cid' c' Hc'. unfold set_comments in Hc' |- *. cbn [comments posts] in Hc' |- *.
    rewrite lookup_delete in Hc'. case_decide; [discriminate|]. exact (Hr cid' c' Hc').
  - destruct (like_post_db db pid req th tl Hk) as [-> | (p & Hp & ->)]; [exact Hr|].
    intros cid c Hc. cbn [comments posts] in Hc |- *.
    destruct (Hr cid c Hc) as [Hid Hs]. split; [exact Hid|]. apply is_Some_insert, Hs.
  - destruct (unlike_post_db db pid req now) as [-> | (p & l & Hp & Hl & ->)]; [exact Hr|].
    intros cid c Hc. cbn [comments posts] in Hc |- *.
    destruct (Hr cid c Hc) as [Hid Hs]. split; [exact Hid|]. apply is_Some_insert, Hs.
Qed.

Lemma unique_exec (db : Db) (o : op) :
  db_inv db -> likes_unique db -> likes_unique (exec db o).
Proof.
  intros (Hk & _ & _) Hu. pose proof (comment_ops_keep db o) as Hkeep.
  destruct o as
    [post rs tc tu|pid u now th|pid|pid body rs tc tu|pid cid u now th|pid cid
    |pid req th tl|pid req now];
    simpl in Hkeep |- *;
    try (destruct Hkeep as [_ Hl]; unfold likes_unique; rewrite Hl; exact Hu).
  - unfold create_post. repeat case_match; exact Hu.
  - unfold update_post. repeat case_match; exact Hu.
  - unfold delete_post. destruct (posts db !! pid); [|exact Hu].
    intros pid' u'. cbn [fst likes].
    etransitivity; [apply filter_filter_count_le|]. apply Hu.
  - destruct (like_post_db_full db pid req th tl Hk) as [-> | (p & Hp & Hl & ->)];
      [exact Hu|].
    intros pid' u'. cbn [likes]. rewrite List.filter_app, List.length_app. simpl.
    destruct (like_matches pid' u' _) eqn:Hm; simpl; [|specialize (Hu pid' u'); lia].
    apply like_matches_row in Hm as [-> ->].
    unfold find_like in Hl. rewrite (find_none_count _ _ Hl). lia.
  - destruct (unlike_post_db db pid req now) as [-> | (p & l & Hp & Hl & ->)];
      [exact Hu|].
    intros pid' u'. cbn [likes].
    etransitivity; [apply remove_row_count_le|]. apply Hu.
Qed.

Lemma full_inv_run (os : list op) :
  forall db, db_inv db -> comments_refer db -> likes_unique db ->
    db_inv (run db os) /\ comments_refer (run db os) /\ likes_unique (run db os).
Proof.
  induction os as [|o os IH]; intros db Hi Hr Hu; [auto|].
  simpl. apply IH.
  - apply inv_exec, Hi.
  - apply refer_exec; assumption.
  - apply unique_exec; assumption.
Qed.

Lemma full_inv_empty :
  db_inv empty_db /\ comments_refer empty_db /\ likes_unique empty_db.
Proof.
  split; [exact db_inv_empty|]. split.
  - intros cid c H. unfold empty_db in H. simpl in H. rewrite lookup_empty in H. discriminate.
  - intros pid u. simpl. lia.
Qed.

Lemma full_inv_reachable (os : list op) :
  db_inv (run empty_db os) /\ comments_refer (run empty_db os)
  /\ likes_unique (run empty_db os).
Proof.
  destruct full_inv_empty as (Hi & Hr & Hu). apply full_inv_run; assumption.
Qed.

Lemma find_some_count (f : DBLike.t -> bool) (ls : list DBLike.t) (x : DBLike.t) :
  List.find f ls = Some x -> (1 <= List.length (List.filter f ls))%nat.
Proof.
  induction ls as [|a ls IH]; simpl; [discriminate|].
  destruct (f a); simpl; [lia|]. exact IH.
Qed.

(** On a database reached from the empty one by any sequence of requests,
    the [likes] rows satisfy [unique_post_user_like], and a lone
    [like_post] never makes the database reject its INSERT: whenever the
    handler goes on to commit, the commit succeeds.  On an existing post
    with a non-empty username it answers 200, and afterwards exactly one
    row exists for [(postId, username)]. *)
Theorem like_insert_never_rejected (os : list op) (pid : string)
    (req : LikeRequest.t) (th tl : timestamp) :
  let db := run empty_db os in
  let u := LikeRequest.username req in
  likes_unique db
  /\ (forall post, like_post_read db pid req = LikePending post false ->
        exists db', commit_like db post u th tl = inr db')
  /\ (is_Some (posts db !! pid) -> is_empty u = false ->
      (exists p, snd (like_post db pid req th tl) = RBody 200 p)
      /\ List.length (List.filter (like_matches pid u)
                       (likes (fst (like_post db pid req th tl)))) = 1%nat).
Proof.
  cbv zeta. destruct (full_inv_reachable os) as ((Hk & _ & _) & _ & Huq).
  generalize dependent (run empty_db os). intros db Hk Huq.
  set (u := LikeRequest.username req).
  split; [exact Huq|]. split.
  - intros post Hr. unfold like_post_read in Hr. fold u in Hr.
    destruct (posts db !! pid) as [p|] eqn:Hp; [|discriminate].
    destruct (is_empty u); [discriminate|].
    destruct (find_like db pid u) as [l|] eqn:Hl; [discriminate|].
    injection Hr as Hpost. subst post.
    unfold commit_like. rewrite (Hk _ _ Hp), Hp, Hl. eauto.
  - intros [p Hp] He. unfold like_post, like_post_read. fold u. rewrite Hp, He.
    destruct (find_like db pid u) as [l|] eqn:Hl; cbv beta iota.
    + cbn [like_post_write fst snd]. split; [eauto|].
      pose proof (find_some_count _ _ _ Hl). specialize (Huq pid u). lia.
    + unfold like_post_write, commit_like. rewrite (Hk _ _ Hp), Hp, Hl.
      cbn [fst snd posts likes]. rewrite lookup_insert_eq.
      cbn [fst snd posts likes]. split; [eauto|].
      rewrite List.filter_app, List.length_app.
      unfold find_like in Hl. rewrite (find_none_count _ _ Hl).
      simpl. rewrite like_matches_refl. reflexivity.
Qed.

(** Along any sequence of requests from the empty database, every post is
    stored under its own id, every comment under its own id, and every
    comment and every likes row refers to an existing post. *)
Theorem referential_integrity_reachable (os : list op) :
  keys_ok (run empty_db os) /\ likes_refer (run empty_db os)
  /\ comments_refer (run empty_db os).
Proof.
  destruct (full_inv_reachable os) as ((Hk & Hl & _) & Hr & _). auto.
Qed.

Lemma find_app_last_none (f : DBLike.t -> bool) (ls : list DBLike.t) (x : DBLike.t) :
  List.find f ls = None -> f x = true -> List.find f (ls ++ [x]) = Some x.
Proof.
  intros Hn Hx. induction ls as [|a ls IH]; simpl in *; [rewrite Hx; reflexivity|].
  destruct (f a); [discriminate|]. exact (IH Hn).
Qed.

Lemma remove_row_app_last (f : DBLike.t -> bool) (ls : list DBLike.t) (x : DBLike.t) :
  List.find f ls = None -> f x = true -> remove_row x (ls ++ [x]) = ls.
Proof.
  intros Hn Hx. induction ls as [|a ls IH]; simpl in *.
  - rewrite decide_True by reflexivity. reflexivity.
  - destruct (f a) eqn:Ha; [discriminate|].
    rewrite decide_False by (intros ->; congruence). rewrite (IH Hn). reflexivity.
Qed.

Lemma same_frame_trans (p q r : DBPost.t) :
  same_frame p q -> same_frame q r -> same_frame p r.
Proof. unfold same_frame. intuition congruence. Qed.

(** A like followed by an unlike of the same user, on a reachable database
    where the post exists and the user has no like yet: the [likes] table
    and the comments are as before, the other posts are untouched, and the
    post keeps its columns and its counter (only [updatedAt] may move). *)
Theorem like_then_unlike_restores (os : list op) (pid : string)
    (req : LikeRequest.t) (t1 tl t2 : timestamp) (p : DBPost.t) :
  posts (run empty_db os) !! pid = Some p ->
  is_empty (LikeRequest.username req) = false ->
  find_like (run empty_db os) pid (LikeRequest.username req) = None ->
  let db2 := fst (unlike_post (fst (like_post (run empty_db os) pid req t1 tl)) pid req t2) in
  likes db2 = likes (run empty_db os)
  /\ comments db2 = comments (run empty_db os)
  /\ (forall pid', pid' <> pid -> posts db2 !! pid' = posts (run empty_db os) !! pid')
  /\ exists p2, posts db2 !! pid = Some p2 /\ same_frame p p2
       /\ DBPost.likes p2 = DBPost.likes p.
Proof.
  destruct (full_inv_reachable os) as ((Hk & _ & Hc) & _).
  generalize dependent (run empty_db os). intros db Hk Hc Hp Hu Hl db2.
  set (u := LikeRequest.username req) in *.
  set (p1 := write_likes p (DBPost.likes p) (DBPost.likes p + 1) t1).
  assert (E : fst (like_post db pid req t1 tl)
              = mkDb (<[pid := p1]> (posts db)) (comments db)
                     (likes db ++ [DBLike.mk pid u tl])).
  { unfold like_post, like_post_read. fold u. rewrite Hp, Hu, Hl. cbv beta iota.
    unfold like_post_write, commit_like. rewrite (Hk _ _ Hp), Hp, Hl.
    simpl. rewrite lookup_insert_eq. reflexivity. }
  unfold db2. rewrite E. unfold unlike_post. fold u. cbn [posts comments likes].
  rewrite lookup_insert_eq, Hu.
  unfold find_like. cbn [likes].
  rewrite (find_app_last_none _ _ _ Hl (like_matches_refl pid u tl)). cbn [fst].
  rewrite (remove_row_app_last _ _ _ Hl (like_matches_refl pid u tl)).
  destruct (write_likes_frame p (DBPost.likes p + 1) t1) as (F1 & L1 & _).
  fold p1 in F1, L1.
  destruct (write_likes_frame p1 (Z.max 0 (DBPost.likes p1 - 1)) t2) as (F2 & L2 & _).
  split; [reflexivity|]. split; [reflexivity|]. split.
  - intros pid' Hne. cbn [posts].
    rewrite lookup_insert_ne by congruence. rewrite lookup_insert_ne by congruence.
    reflexivity.
  - eexists. cbn [posts]. split; [rewrite lookup_insert_eq; reflexivity|].
    split; [exact (same_frame_trans _ _ _ F1 F2)|].
    rewrite L2, L1. rewrite (Hc _ _ Hp). lia.
Qed.

Lemma like_then_unlike_restores_witness :
  let db := run empty_db [OCreatePost (PostBase.mk "alice" "hi") rs0 5 5] in
  let db2 := fst (unlike_post (fst (like_post db "p_aaaaaaaa" alice 7 7))
                              "p_aaaaaaaa" alice 9) in
  likes db2 = likes db /\ comments db2 = comments db
  /\ (forall pid', pid' <> "p_aaaaaaaa"%string -> posts db2 !! pid' = posts db !! pid')
  /\ exists p2, posts db2 !! "p_aaaaaaaa"%string = Some p2 /\ same_frame post_one p2
       /\ DBPost.likes p2 = DBPost.likes post_one.
Proof.
  apply (like_then_unlike_restores _ "p_aaaaaaaa" alice 7 7 9 post_one);
    vm_compute; reflexivity.
Defined.

(** A second unlike right after an unlike, on a reachable database, changes
    nothing: the [likes] rows are unique, so the first one removed the only
    matching row.  With a non-empty username it answers as [get_post]. *)
Theorem unlike_twice_reachable (os : list op) (pid : string)
    (req : LikeRequest.t) (t1 t2 : timestamp) :
  let db1 := fst (unlike_post (run empty_db os) pid req t1) in
  fst (unlike_post db1 pid req t2) = db1
  /\ (is_empty (LikeRequest.username req) = false ->
      snd (unlike_post db1 pid req t2) = get_post db1 pid).
Proof.
  destruct (full_inv_reachable os) as (_ & _ & Huq).
  generalize dependent (run empty_db os). intros db Huq db1.
  set (u := LikeRequest.username req) in *.
  assert (Hnoop : forall d, find_like d pid u = None ->
            fst (unlike_post d pid req t2) = d
            /\ (is_empty u = false -> snd (unlike_post d pid req t2) = get_post d pid)).
  { intros d Hn. unfold unlike_post, get_post. fold u.
    destruct (posts d !! pid); [|auto].
    destruct (is_empty u); [split; [reflexivity|discriminate]|].
    rewrite Hn. auto. }
  assert (Hsame : forall d, posts d !! pid = None \/ is_empty u = true ->
            fst (unlike_post d pid req t2) = d
            /\ (is_empty u = false -> snd (unlike_post d pid req t2) = get_post d pid)).
  { intros d Hd. unfold unlike_post, get_post. fold u.
    destruct Hd as [Hd|Hd]; rewrite Hd; [auto|].
    destruct (posts d !! pid); [|auto]. split; [reflexivity|discriminate]. }
  unfold db1. destruct (unlike_post db pid req t1) as [d r] eqn:E. cbn [fst].
  unfold unlike_post in E. fold u in E.
  destruct (posts db !! pid) as [p|] eqn:Hp;
    [|injection E as <- _; apply Hsame; auto].
  destruct (is_empty u) eqn:He; [injection E as <- _; apply Hsame; auto|].
  destruct (find_like db pid u) as [l|] eqn:Hl;
    [|injection E as <- _; apply Hnoop, Hl].
  injection E as <- _. apply Hnoop.
  unfold find_like. cbn [likes].
  apply count_zero_find.
  pose proof (List.find_some _ _ Hl) as [Hin Hm].
  pose proof (count_remove_row_any (like_matches pid u) l (likes db) Hin) as Hcnt.
  rewrite Hm in Hcnt. specialize (Huq pid u). lia.
Qed.
